(** * Deterministic wallpaper selection of [backend/server.py]

    A shallow embedding of the [generate_wallpaper] request handler and of the
    runtime functions it calls ([str.lower], [str.encode], [hashlib.md5],
    [int(_, 16)], [str.replace], the [in] operator on strings), followed by
    the properties of the selection stated in the specification. *)

From Stdlib Require Import NArith ZArith String Ascii Bool Lia List.
Import ListNotations.

Local Open Scope N_scope.

(** ** Python strings and bytes

    A Python [str] is a sequence of Unicode code points (values below
    [0x110000], lone surrogates included); [bytes] is a sequence of octets. *)

Definition codepoint := N.
Definition pystr := list codepoint.
Definition pybytes := list N.

(** A literal of the source, read character by character. All literals of
    [server.py] used below are ASCII. *)
Definition py (s : string) : pystr := map N_of_ascii (list_ascii_of_string s).

Definition pystr_eqb (a b : pystr) : bool :=
  if list_eq_dec N.eq_dec a b then true else false.

(** [needle in haystack] for strings: [needle] occurs as a contiguous run. *)
Fixpoint starts_with (needle s : pystr) : bool :=
  match needle, s with
  | [], _ => true
  | _ :: _, [] => false
  | a :: needle', b :: s' => (a =? b) && starts_with needle' s'
  end.

Fixpoint str_contains (needle s : pystr) : bool :=
  starts_with needle s ||
  match s with
  | [] => false
  | _ :: s' => str_contains needle s'
  end.

(** [s.replace(old, new)]: every non-overlapping occurrence of [old], found
    left to right, is replaced. [skip] counts the characters of an occurrence
    already replaced that are still to be passed over. *)
Fixpoint replace_from (old new : pystr) (skip : nat) (s : pystr) : pystr :=
  match s with
  | [] => []
  | c :: s' =>
      match skip with
      | S k => replace_from old new k s'
      | O =>
          if starts_with old s
          then new ++ replace_from old new (pred (length old)) s'
          else c :: replace_from old new O s'
      end
  end.

Definition str_replace (s old new : pystr) : pystr :=
  match old with
  | [] => new ++ flat_map (fun c => c :: new) s
  | _ :: _ => replace_from old new O s
  end.

(** *** [str.lower]

    CPython lowers an all-ASCII string byte by byte and sends every other
    string through the Unicode case tables of the interpreter; those tables
    are not part of the repository and are taken as a function
    [unicode_lower] wherever [str_lower] is used. *)

Definition is_ascii (c : codepoint) : bool := c <? 128.

Definition ascii_lower (c : codepoint) : codepoint :=
  if (65 <=? c) && (c <=? 90) then c + 32 else c.

Definition str_lower (unicode_lower : pystr -> pystr) (s : pystr) : pystr :=
  if forallb is_ascii s then map ascii_lower s else unicode_lower s.

(** ** Exceptions and the error monad of the handler's [try] block *)

Inductive exn : Type :=
| UnicodeEncodeError (object : pystr) (start stop : nat)
| ValueError (literal : pystr)
| ZeroDivisionError
| IndexError.

Definition result (A : Type) : Type := (exn + A)%type.

Definition ok {A} (a : A) : result A := inr a.
Definition raise {A} (e : exn) : result A := inl e.

Definition bind {A B} (m : result A) (k : A -> result B) : result B :=
  match m with
  | inl e => inl e
  | inr a => k a
  end.

Notation "x <- m ;; k" := (bind m (fun x => k))
  (at level 61, m at next level, right associativity).

(** *** [str.encode()] (UTF-8, strict)

    Surrogate code points cannot be encoded: the call raises
    [UnicodeEncodeError] at the first one, reporting the string and the
    positions of the run of such code points that starts there. Values from
    [0x110000] on are not code points of any string and are refused alike. *)

Definition is_surrogate (c : codepoint) : bool := (0xD800 <=? c) && (c <=? 0xDFFF).

Definition encodable (c : codepoint) : bool :=
  negb (is_surrogate c) && (c <? 0x110000).

Definition utf8_char (c : codepoint) : pybytes :=
  if c <? 0x80 then [c]
  else if c <? 0x800 then
    [N.lor 0xC0 (N.shiftr c 6); N.lor 0x80 (N.land c 0x3F)]
  else if c <? 0x10000 then
    [N.lor 0xE0 (N.shiftr c 12);
     N.lor 0x80 (N.land (N.shiftr c 6) 0x3F);
     N.lor 0x80 (N.land c 0x3F)]
  else
    [N.lor 0xF0 (N.shiftr c 18);
     N.lor 0x80 (N.land (N.shiftr c 12) 0x3F);
     N.lor 0x80 (N.land (N.shiftr c 6) 0x3F);
     N.lor 0x80 (N.land c 0x3F)].

Fixpoint run_length (s : pystr) : nat :=
  match s with
  | [] => O
  | c :: s' => if encodable c then O else S (run_length s')
  end.

Fixpoint encode_from (object : pystr) (pos : nat) (s : pystr) : result pybytes :=
  match s with
  | [] => ok []
  | c :: s' =>
      if encodable c
      then rest <- encode_from object (S pos) s' ;; ok (utf8_char c ++ rest)
      else raise (UnicodeEncodeError object pos (pos + run_length s))
  end.

Definition str_encode (s : pystr) : result pybytes := encode_from s O s.

(** ** [hashlib.md5] (RFC 1321) on 32-bit words kept in [N] *)

Module MD5.

Definition w32 (x : N) : N := x mod 2 ^ 32.
Definition add32 (x y : N) : N := w32 (x + y).
Definition not32 (x : N) : N := N.lxor x 0xFFFFFFFF.
Definition rotl32 (x n : N) : N :=
  N.lor (w32 (N.shiftl x n)) (N.shiftr x (32 - n)).

Definition K : list N :=
  [ 0xd76aa478; 0xe8c7b756; 0x242070db; 0xc1bdceee;
    0xf57c0faf; 0x4787c62a; 0xa8304613; 0xfd469501;
    0x698098d8; 0x8b44f7af; 0xffff5bb1; 0x895cd7be;
    0x6b901122; 0xfd987193; 0xa679438e; 0x49b40821;
    0xf61e2562; 0xc040b340; 0x265e5a51; 0xe9b6c7aa;
    0xd62f105d; 0x02441453; 0xd8a1e681; 0xe7d3fbc8;
    0x21e1cde6; 0xc33707d6; 0xf4d50d87; 0x455a14ed;
    0xa9e3e905; 0xfcefa3f8; 0x676f02d9; 0x8d2a4c8a;
    0xfffa3942; 0x8771f681; 0x6d9d6122; 0xfde5380c;
    0xa4beea44; 0x4bdecfa9; 0xf6bb4b60; 0xbebfbc70;
    0x289b7ec6; 0xeaa127fa; 0xd4ef3085; 0x04881d05;
    0xd9d4d039; 0xe6db99e5; 0x1fa27cf8; 0xc4ac5665;
    0xf4292244; 0x432aff97; 0xab9423a7; 0xfc93a039;
    0x655b59c3; 0x8f0ccc92; 0xffeff47d; 0x85845dd1;
    0x6fa87e4f; 0xfe2ce6e0; 0xa3014314; 0x4e0811a1;
    0xf7537e82; 0xbd3af235; 0x2ad7d2bb; 0xeb86d391 ].

Definition shifts : list N :=
  [ 7; 12; 17; 22; 7; 12; 17; 22; 7; 12; 17; 22; 7; 12; 17; 22;
    5; 9; 14; 20; 5; 9; 14; 20; 5; 9; 14; 20; 5; 9; 14; 20;
    4; 11; 16; 23; 4; 11; 16; 23; 4; 11; 16; 23; 4; 11; 16; 23;
    6; 10; 15; 21; 6; 10; 15; 21; 6; 10; 15; 21; 6; 10; 15; 21 ].

Record state := mk_state { sa : N; sb : N; sc : N; sd : N }.

Definition init : state :=
  mk_state 0x67452301 0xefcdab89 0x98badcfe 0x10325476.

(** Round function and message-word index of step [i] (0 <= i < 64). *)
Definition mix (i : N) (b c d : N) : N :=
  if i <? 16 then N.lor (N.land b c) (N.land (not32 b) d)
  else if i <? 32 then N.lor (N.land d b) (N.land (not32 d) c)
  else if i <? 48 then N.lxor (N.lxor b c) d
  else N.lxor c (N.lor b (not32 d)).

Definition word_index (i : N) : N :=
  if i <? 16 then i
  else if i <? 32 then (5 * i + 1) mod 16
  else if i <? 48 then (3 * i + 5) mod 16
  else (7 * i) mod 16.

Definition step (m : list N) (st : state) (i : N) : state :=
  let f := mix i (sb st) (sc st) (sd st) in
  let g := nth (N.to_nat (word_index i)) m 0 in
  let k := nth (N.to_nat i) K 0 in
  let s := nth (N.to_nat i) shifts 0 in
  let f' := add32 (add32 (add32 f (sa st)) k) g in
  mk_state (sd st) (add32 (sb st) (rotl32 f' s)) (sb st) (sc st).

Definition steps : list N := map N.of_nat (seq 0 64).

(** Little-endian packing of four octets into a word and back. *)
Definition word_of_bytes (b : pybytes) : N :=
  match b with
  | [b0; b1; b2; b3] =>
      N.lor b0 (N.lor (N.shiftl b1 8) (N.lor (N.shiftl b2 16) (N.shiftl b3 24)))
  | _ => 0
  end.

Definition bytes_of_word (x : N) : pybytes :=
  [N.land x 0xFF; N.land (N.shiftr x 8) 0xFF;
   N.land (N.shiftr x 16) 0xFF; N.land (N.shiftr x 24) 0xFF].

Fixpoint chunks (fuel size : nat) (l : pybytes) : list pybytes :=
  match fuel with
  | O => []
  | S fuel' =>
      match l with
      | [] => []
      | _ :: _ => firstn size l :: chunks fuel' size (skipn size l)
      end
  end.

Definition block (st : state) (blk : pybytes) : state :=
  let m := map word_of_bytes (chunks 16 4 blk) in
  let st' := fold_left (step m) steps st in
  mk_state (add32 (sa st) (sa st')) (add32 (sb st) (sb st'))
           (add32 (sc st) (sc st')) (add32 (sd st) (sd st')).

(** Padding: a one bit, zeros up to 56 modulo 64, then the bit length as a
    64-bit little-endian number. *)
Definition pad (msg : pybytes) : pybytes :=
  let len := N.of_nat (length msg) in
  let zeros := N.to_nat ((55 + 64 - len mod 64) mod 64) in
  let bits := (8 * len) mod 2 ^ 64 in
  msg ++ [0x80] ++ repeat 0 zeros
      ++ bytes_of_word (w32 bits) ++ bytes_of_word (N.shiftr bits 32).

Definition digest (msg : pybytes) : pybytes :=
  let p := pad msg in
  let st := fold_left block (chunks (length p) 64 p) init in
  bytes_of_word (sa st) ++ bytes_of_word (sb st)
    ++ bytes_of_word (sc st) ++ bytes_of_word (sd st).

Definition hex_digit (n : N) : codepoint :=
  if n <? 10 then 48 + n else 87 + n.

Definition hex_byte (b : N) : pystr :=
  [hex_digit (N.shiftr b 4); hex_digit (N.land b 0xF)].

Definition hexdigest (msg : pybytes) : pystr := flat_map hex_byte (digest msg).

End MD5.

(** ** Builtins used by the handler *)

Local Open Scope Z_scope.

(** [int(s, 16)] on a string of hexadecimal digits. Python also accepts a
    sign, a [0x] prefix, underscores and surrounding blanks; the handler only
    passes a slice of a hexdigest, so those forms are left out and anything
    that is not a non-empty run of digits raises [ValueError] here. *)
Definition hex_value (c : codepoint) : option Z :=
  if ((48 <=? c) && (c <=? 57))%N then Some (Z.of_N c - 48)
  else if ((97 <=? c) && (c <=? 102))%N then Some (Z.of_N c - 87)
  else if ((65 <=? c) && (c <=? 70))%N then Some (Z.of_N c - 55)
  else None.

Fixpoint hex_digits (acc : Z) (s : pystr) : option Z :=
  match s with
  | [] => Some acc
  | c :: s' =>
      match hex_value c with
      | Some d => hex_digits (16 * acc + d) s'
      | None => None
      end
  end.

Definition int_base16 (s : pystr) : result Z :=
  match s with
  | [] => raise (ValueError s)
  | _ :: _ =>
      match hex_digits 0 s with
      | Some n => ok n
      | None => raise (ValueError s)
      end
  end.

(** [a % b] on Python integers: the result has the sign of [b]. *)
Definition py_mod (a b : Z) : result Z :=
  if b =? 0 then raise ZeroDivisionError else ok (a mod b).

Definition len {A} (l : list A) : Z := Z.of_nat (List.length l).

(** [l[i]]: a negative index counts from the end. *)
Definition getitem {A} (l : list A) (i : Z) : result A :=
  let j := if i <? 0 then i + len l else i in
  if (0 <=? j) && (j <? len l) then
    match nth_error l (Z.to_nat j) with
    | Some x => ok x
    | None => raise IndexError
    end
  else raise IndexError.

(** ** Request and response models *)

Module WallpaperRequest.
Record t := mk { prompt : pystr; aspect_ratio : pystr; style : option pystr }.

(** [WallpaperRequest(prompt=..., aspect_ratio=..., style=...)] with the
    defaults of the class for the fields a client leaves out. *)
Definition init (prompt : pystr) (aspect_ratio style : option pystr) : t :=
  mk prompt (match aspect_ratio with Some a => a | None => py "9:16" end) style.
End WallpaperRequest.

Module WallpaperResponse.
Record t := mk {
  success : bool;
  image_url : option pystr;
  prompt : pystr;
  aspect_ratio : pystr;
  error : option pystr
}.
End WallpaperResponse.

(** ** The catalog of [generate_wallpaper] *)

(** Python dictionaries iterate in insertion order: an association list. *)
Definition sample_wallpapers : list (pystr * list pystr) :=
  [ (py "nature",
      [ py "https://images.unsplash.com/photo-1506905925346-21bda4d32df4?w=512&h=910&fit=crop&auto=format";
        py "https://images.unsplash.com/photo-1441974231531-c6227db76b6e?w=512&h=910&fit=crop&auto=format";
        py "https://images.unsplash.com/photo-1501594907352-04cda38ebc29?w=512&h=910&fit=crop&auto=format" ]);
    (py "city",
      [ py "https://images.unsplash.com/photo-1449824913935-59a10b8d2000?w=512&h=910&fit=crop&auto=format";
        py "https://images.unsplash.com/photo-1519501025264-65ba15a82390?w=512&h=910&fit=crop&auto=format" ]);
    (py "abstract",
      [ py "https://images.unsplash.com/photo-1618005182384-a83a8bd57fbe?w=512&h=910&fit=crop&auto=format";
        py "https://images.unsplash.com/photo-1557683304-673a23048d34?w=512&h=910&fit=crop&auto=format" ]);
    (py "space",
      [ py "https://images.unsplash.com/photo-1446776877081-d282a0f896e2?w=512&h=910&fit=crop&auto=format";
        py "https://images.unsplash.com/photo-1419242902214-272b3f66ee7a?w=512&h=910&fit=crop&auto=format" ]);
    (py "dark",
      [ py "https://images.unsplash.com/photo-1618556450991-2f1af64e8191?w=512&h=910&fit=crop&auto=format";
        py "https://images.unsplash.com/photo-1547036967-23d11aacaee0?w=512&h=910&fit=crop&auto=format" ]);
    (py "minimal",
      [ py "https://images.unsplash.com/photo-1557683316-973673baf926?w=512&h=910&fit=crop&auto=format";
        py "https://images.unsplash.com/photo-1574169208507-84376144848b?w=512&h=910&fit=crop&auto=format" ]) ].

Definition default_wallpapers : list pystr :=
  [ py "https://images.unsplash.com/photo-1506905925346-21bda4d32df4?w=512&h=910&fit=crop&auto=format";
    py "https://images.unsplash.com/photo-1441974231531-c6227db76b6e?w=512&h=910&fit=crop&auto=format";
    py "https://images.unsplash.com/photo-1449824913935-59a10b8d2000?w=512&h=910&fit=crop&auto=format";
    py "https://images.unsplash.com/photo-1618005182384-a83a8bd57fbe?w=512&h=910&fit=crop&auto=format" ].

(** The [for ... in sample_wallpapers.items()] loop with its [break]. *)
Fixpoint select_category (items : list (pystr * list pystr))
    (combined_text : pystr) (selected_wallpapers : list pystr) : list pystr :=
  match items with
  | [] => selected_wallpapers
  | (category, wallpapers) :: items' =>
      if str_contains category combined_text then wallpapers
      else select_category items' combined_text selected_wallpapers
  end.

Definition base_dimensions : pystr := py "w=512&h=910".

(** The [if]/[elif] chain on [request.aspect_ratio]. *)
Definition adjust_dimensions (aspect_ratio selected_wallpaper : pystr) : pystr :=
  if pystr_eqb aspect_ratio (py "16:9") then
    str_replace selected_wallpaper base_dimensions (py "w=910&h=512")
  else if pystr_eqb aspect_ratio (py "1:1") then
    str_replace selected_wallpaper base_dimensions (py "w=512&h=512")
  else if pystr_eqb aspect_ratio (py "3:4") then
    str_replace selected_wallpaper base_dimensions (py "w=512&h=683")
  else selected_wallpaper.

(** [int(prompt_hash[:2], 16) % len(selected_wallpapers)] *)
Definition wallpaper_index (prompt : pystr) (selected_wallpapers : list pystr)
  : result Z :=
  data <- str_encode prompt ;;
  let prompt_hash := MD5.hexdigest data in
  n <- int_base16 (firstn 2 prompt_hash) ;;
  py_mod n (len selected_wallpapers).

(** ** Process state

    The module-level bindings a handler can reach: the two lazily created
    agents and the records handed to [logger]. *)

Inductive AgentConfig := agent_config.
(** An agent is an object: besides the configuration it was built from it
    has an identity ([id(agent)]), so that one agent can be told from another
    built from the same configuration. *)
Inductive SearchAgent := SearchAgent_of (config : AgentConfig) (identity : N).
Inductive ChatAgent := ChatAgent_of (config : AgentConfig) (identity : N).
Inductive level := INFO | ERROR.

Record process := mk_process {
  search_agent : option SearchAgent;
  chat_agent : option ChatAgent;
  log : list (level * pystr)
}.

Definition logger_error (msg : pystr) (p : process) : process :=
  mk_process (search_agent p) (chat_agent p) (log p ++ [(ERROR, msg)]).

Section Handler.

(** What the interpreter supplies: the Unicode case tables behind
    [str.lower] and the text [str(e)] of an exception. *)
Variable unicode_lower : pystr -> pystr.
Variable str_exn : exn -> pystr.

(** [request.style or ""]: [None] and the empty string both give [""]. *)
Definition style_or_empty (request : WallpaperRequest.t) : pystr :=
  match WallpaperRequest.style request with
  | Some s => s
  | None => py ""
  end.

Definition combined_text (request : WallpaperRequest.t) : pystr :=
  let prompt_lower := str_lower unicode_lower (WallpaperRequest.prompt request) in
  let style_lower := str_lower unicode_lower (style_or_empty request) in
  prompt_lower ++ py " " ++ style_lower.

Definition selected_wallpapers (request : WallpaperRequest.t) : list pystr :=
  select_category sample_wallpapers (combined_text request) default_wallpapers.

(** The wallpaper picked before the dimensions are adjusted. *)
Definition selected_template (request : WallpaperRequest.t) : result pystr :=
  let selected := selected_wallpapers request in
  i <- wallpaper_index (WallpaperRequest.prompt request) selected ;;
  getitem selected i.

(** The body of the [try] block, up to the value of [selected_wallpaper]
    handed to the response. *)
Definition try_body (request : WallpaperRequest.t) : result pystr :=
  selected_wallpaper <- selected_template request ;;
  ok (adjust_dimensions (WallpaperRequest.aspect_ratio request) selected_wallpaper).

Definition generate_wallpaper (request : WallpaperRequest.t) (p : process)
  : WallpaperResponse.t * process :=
  match try_body request with
  | inr selected_wallpaper =>
      (WallpaperResponse.mk true (Some selected_wallpaper)
         (WallpaperRequest.prompt request) (WallpaperRequest.aspect_ratio request) None,
       p)
  | inl e =>
      (WallpaperResponse.mk false None
         (WallpaperRequest.prompt request) (WallpaperRequest.aspect_ratio request)
         (Some (str_exn e)),
       logger_error (py "Error generating wallpaper: " ++ str_exn e) p)
  end.

End Handler.

(** ** Notions used in the statements *)

(** The digest is sixteen octets; its first octet is what the handler reads. *)
Definition digest_head (data : pybytes) : N := hd 0%N (MD5.digest data).

(** [sample_wallpapers[category]] *)
Definition bucket_of (category : pystr) : list pystr :=
  match find (fun kv => pystr_eqb (fst kv) category) sample_wallpapers with
  | Some kv => snd kv
  | None => []
  end.

(** Every list the handler can select from, and every template in them. *)
Definition buckets : list (list pystr) :=
  default_wallpapers :: map snd sample_wallpapers.

Definition templates : list pystr := concat buckets.

(** The substitution table of the [if]/[elif] chain. *)
Definition dimension_table : list (pystr * pystr) :=
  [ (py "16:9", py "w=910&h=512");
    (py "1:1", py "w=512&h=512");
    (py "3:4", py "w=512&h=683") ].

(** Cuts [s] around the first occurrence of [needle]. *)
Fixpoint cut (needle s : pystr) : option (pystr * pystr) :=
  if starts_with needle s then Some ([], skipn (List.length needle) s)
  else
    match s with
    | [] => None
    | c :: s' =>
        match cut needle s' with
        | Some (pre, post) => Some (c :: pre, post)
        | None => None
        end
    end.

(** Both the replaced and the unreplaced form of a template are checked by
    evaluation over the whole catalog. *)
Definition template_ok (t : pystr) : bool :=
  match cut base_dimensions t with
  | Some (pre, post) =>
      pystr_eqb t (pre ++ base_dimensions ++ post) &&
      forallb (fun ad =>
                 pystr_eqb (adjust_dimensions (fst ad) t) (pre ++ snd ad ++ post) &&
                 negb (pystr_eqb (adjust_dimensions (fst ad) t) t))
              dimension_table
  | None => false
  end.

(** The dimensions the [if]/[elif] chain writes for an aspect ratio; the
    default ones for a ratio it does not list. *)
Definition dimensions_of (aspect_ratio : pystr) : pystr :=
  match find (fun ad => pystr_eqb aspect_ratio (fst ad)) dimension_table with
  | Some ad => snd ad
  | None => base_dimensions
  end.

Definition url_prefix : pystr := py "https://images.unsplash.com/photo-".
Definition url_suffix : pystr := py "&fit=crop&auto=format".

(** The photo identifier of a template: what stands between the prefix and
    the question mark. *)
Definition photo_id (t : pystr) : pystr :=
  match cut (py "?") (skipn (List.length url_prefix) t) with
  | Some (id, _) => id
  | None => []
  end.

Definition url_of (id dims : pystr) : pystr :=
  url_prefix ++ id ++ py "?" ++ dims ++ url_suffix.

Definition photo_ok (t : pystr) : bool :=
  pystr_eqb t (url_of (photo_id t) base_dimensions) &&
  forallb (fun ad =>
             pystr_eqb (str_replace t base_dimensions (snd ad))
                       (url_of (photo_id t) (snd ad)))
          dimension_table.

(** ** The agent endpoints

    [chat_with_agent], [search_and_summarize] and [get_agent_capabilities]
    hand their work to the classes of [ai_agents.agents] and keep the two
    agents they create in the module-level bindings of [process]. *)

(** A [dict] with string keys, in insertion order; [pyobject] stands for the
    values the handlers pass along without looking inside. *)
Definition pydict (pyobject : Type) : Type := list (pystr * pyobject).

(** [d.get(key)], [None] when the key is missing. *)
Fixpoint dict_get {pyobject : Type} (d : pydict pyobject) (key : pystr)
  : option pyobject :=
  match d with
  | [] => None
  | (k, v) :: d' => if pystr_eqb k key then Some v else dict_get d' key
  end.

Module AgentResponse.
(** Modelled from the spec: the class of the value [execute] returns is not
    among the sources; the boundary contract gives it these four fields. *)
Record t (pyobject : Type) := mk {
  success : bool;
  content : pystr;
  metadata : pydict pyobject;
  error : option pystr
}.
Arguments mk {pyobject}.
Arguments success {pyobject}.
Arguments content {pyobject}.
Arguments metadata {pyobject}.
Arguments error {pyobject}.
End AgentResponse.

Module ChatRequest.
Record t (pyobject : Type) := mk {
  message : pystr;
  agent_type : pystr;
  context : option (pydict pyobject)
}.
Arguments mk {pyobject}.
Arguments message {pyobject}.
Arguments agent_type {pyobject}.
Arguments context {pyobject}.
End ChatRequest.

Module ChatResponse.
Record t (pyobject : Type) := mk {
  success : bool;
  response : pystr;
  agent_type : pystr;
  capabilities : list pystr;
  metadata : pydict pyobject;
  error : option pystr
}.
Arguments mk {pyobject}.
Arguments success {pyobject}.
Arguments response {pyobject}.
Arguments agent_type {pyobject}.
Arguments capabilities {pyobject}.
Arguments metadata {pyobject}.
Arguments error {pyobject}.
End ChatResponse.

Module SearchRequest.
Record t := mk { query : pystr; max_results : Z }.
End SearchRequest.

Module SearchResponse.
Record t (pyobject : Type) := mk {
  success : bool;
  query : pystr;
  summary : pystr;
  search_results : option (pydict pyobject);
  sources_count : Z;
  error : option pystr
}.
Arguments mk {pyobject}.
Arguments success {pyobject}.
Arguments query {pyobject}.
Arguments summary {pyobject}.
Arguments search_results {pyobject}.
Arguments sources_count {pyobject}.
Arguments error {pyobject}.
End SearchResponse.

(** What [get_agent_capabilities] returns: the dictionary with [success],
    and either the two capability lists or the error text. *)
Inductive capabilities_reply : Type :=
| CapabilitiesOk (search_agent chat_agent : list pystr)
| CapabilitiesError (error : pystr).

(** What the agent handlers can catch: the [HTTPException] they raise
    themselves, whatever a call into the agent library raises, a response
    model refusing a field, and an attribute looked up on [None]. *)
Inductive fault (agent_error : Type) : Type :=
| HTTPException (status_code : Z) (detail : pystr)
| AgentRaised (e : agent_error)
| ValidationError (field : pystr)
| AttributeError.
Arguments HTTPException {agent_error}.
Arguments AgentRaised {agent_error}.
Arguments ValidationError {agent_error}.
Arguments AttributeError {agent_error}.

(** The calls that leave the repository. [env] is everything they can read
    or change (network, model provider); each call either raises or returns.
    [execute] is called with or without [use_tools]; [validate_int] is the
    check of the response model on an [int] field; [str_of_fault] is
    [str(e)]. *)
Record collaborators (pyobject agent_error env : Type) := mk_collaborators {
  SearchAgent_new : AgentConfig -> env -> (agent_error + SearchAgent) * env;
  ChatAgent_new : AgentConfig -> env -> (agent_error + ChatAgent) * env;
  execute : SearchAgent + ChatAgent -> pystr -> option bool -> env ->
            (agent_error + AgentResponse.t pyobject) * env;
  get_capabilities : SearchAgent + ChatAgent -> env ->
                     (agent_error + list pystr) * env;
  validate_int : pyobject -> option Z;
  str_of_fault : fault agent_error -> pystr
}.
Arguments SearchAgent_new {pyobject agent_error env}.
Arguments ChatAgent_new {pyobject agent_error env}.
Arguments execute {pyobject agent_error env}.
Arguments get_capabilities {pyobject agent_error env}.
Arguments validate_int {pyobject agent_error env}.
Arguments str_of_fault {pyobject agent_error env}.

Definition is_none {A : Type} (o : option A) : bool :=
  match o with
  | Some _ => false
  | None => true
  end.

Section AgentHandlers.

Context {pyobject agent_error env : Type}.
Variable lib : collaborators pyobject agent_error env.

(** A [try] block over the process bindings and the outside world: an
    assignment to a global made before an exception stays made. *)
Definition block (A : Type) : Type :=
  process * env -> (fault agent_error + A) * (process * env).

Definition ret {A : Type} (a : A) : block A := fun s => (inr a, s).

Definition throw {A : Type} (e : fault agent_error) : block A :=
  fun s => (inl e, s).

Definition and_then {A B : Type} (m : block A) (k : A -> block B) : block B :=
  fun s =>
    match m s with
    | (inr a, s') => k a s'
    | (inl e, s') => (inl e, s')
    end.

Notation "x <~ m ;; k" := (and_then m (fun x => k))
  (at level 61, m at next level, right associativity).

(** A call into the agent library. *)
Definition call {A : Type} (f : env -> (agent_error + A) * env) : block A :=
  fun s =>
    match f (snd s) with
    | (inr a, w) => (inr a, (fst s, w))
    | (inl e, w) => (inl (AgentRaised e), (fst s, w))
    end.

Definition globals : block process := fun s => (inr (fst s), s).

Definition set_search_agent (a : SearchAgent) : block unit :=
  fun s =>
    (inr tt, (mk_process (Some a) (chat_agent (fst s)) (log (fst s)), snd s)).

Definition set_chat_agent (a : ChatAgent) : block unit :=
  fun s =>
    (inr tt, (mk_process (search_agent (fst s)) (Some a) (log (fst s)), snd s)).

(** The [try] block of [chat_with_agent]. *)
Definition chat_try (request : ChatRequest.t pyobject)
  : block (ChatResponse.t pyobject) :=
  p <~ globals ;;
  _ <~ (if pystr_eqb (ChatRequest.agent_type request) (py "search")
           && is_none (search_agent p)
        then a <~ call (SearchAgent_new lib agent_config) ;; set_search_agent a
        else if pystr_eqb (ChatRequest.agent_type request) (py "chat")
                && is_none (chat_agent p)
        then a <~ call (ChatAgent_new lib agent_config) ;; set_chat_agent a
        else ret tt) ;;
  p <~ globals ;;
  let agent : option (SearchAgent + ChatAgent) :=
    if pystr_eqb (ChatRequest.agent_type request) (py "search")
    then option_map inl (search_agent p)
    else option_map inr (chat_agent p) in
  match agent with
  | None => throw (HTTPException 500 (py "Failed to initialize agent"))
  | Some agent =>
      response <~ call (execute lib agent (ChatRequest.message request) None) ;;
      capabilities <~ call (get_capabilities lib agent) ;;
      ret (ChatResponse.mk
             (AgentResponse.success response)
             (AgentResponse.content response)
             (ChatRequest.agent_type request)
             capabilities
             (AgentResponse.metadata response)
             (AgentResponse.error response))
  end.

Definition chat_with_agent (request : ChatRequest.t pyobject)
    (s : process * env) : ChatResponse.t pyobject * (process * env) :=
  match chat_try request s with
  | (inr response, s') => (response, s')
  | (inl e, s') =>
      (ChatResponse.mk false (py "") (ChatRequest.agent_type request) [] []
         (Some (str_of_fault lib e)),
       (logger_error (py "Error in chat endpoint: " ++ str_of_fault lib e)
          (fst s'),
        snd s'))
  end.

(** [sources_count=result.metadata.get("tools_used", 0)], checked by the
    response model. *)
Definition tools_used (metadata : pydict pyobject) : block Z :=
  match dict_get metadata (py "tools_used") with
  | None => ret 0
  | Some v =>
      match validate_int lib v with
      | Some n => ret n
      | None => throw (ValidationError (py "sources_count"))
      end
  end.

Definition search_prompt (query : pystr) : pystr :=
  py "Search for information about: " ++ query ++
  py ". Provide a comprehensive summary with key findings.".

(** The [try] block of [search_and_summarize]. *)
Definition search_try (request : SearchRequest.t)
  : block (SearchResponse.t pyobject) :=
  p <~ globals ;;
  _ <~ (if is_none (search_agent p)
        then a <~ call (SearchAgent_new lib agent_config) ;; set_search_agent a
        else ret tt) ;;
  p <~ globals ;;
  match search_agent p with
  | None => throw AttributeError
  | Some a =>
      result <~ call (execute lib (inl a)
                        (search_prompt (SearchRequest.query request))
                        (Some true)) ;;
      if AgentResponse.success result then
        n <~ tools_used (AgentResponse.metadata result) ;;
        ret (SearchResponse.mk true (SearchRequest.query request)
               (AgentResponse.content result)
               (Some (AgentResponse.metadata result)) n None)
      else
        ret (SearchResponse.mk false (SearchRequest.query request)
               (py "") None 0 (AgentResponse.error result))
  end.

Definition search_and_summarize (request : SearchRequest.t)
    (s : process * env) : SearchResponse.t pyobject * (process * env) :=
  match search_try request s with
  | (inr response, s') => (response, s')
  | (inl e, s') =>
      (SearchResponse.mk false (SearchRequest.query request) (py "") None 0
         (Some (str_of_fault lib e)),
       (logger_error (py "Error in search endpoint: " ++ str_of_fault lib e)
          (fst s'),
        snd s'))
  end.

(** The [try] block of [get_agent_capabilities]: two fresh agents. *)
Definition capabilities_try : block (list pystr * list pystr) :=
  sa <~ call (SearchAgent_new lib agent_config) ;;
  sc <~ call (get_capabilities lib (inl sa)) ;;
  ca <~ call (ChatAgent_new lib agent_config) ;;
  cc <~ call (get_capabilities lib (inr ca)) ;;
  ret (sc, cc).

Definition get_agent_capabilities (s : process * env)
  : capabilities_reply * (process * env) :=
  match capabilities_try s with
  | (inr (sc, cc), s') => (CapabilitiesOk sc cc, s')
  | (inl e, s') =>
      (CapabilitiesError (str_of_fault lib e),
       (logger_error (py "Error getting capabilities: " ++ str_of_fault lib e)
          (fst s'),
        snd s'))
  end.

End AgentHandlers.

(** * Properties *)

(** ** The runtime functions *)

Lemma starts_with_iff (needle s : pystr) :
  starts_with needle s = true <-> exists post, s = needle ++ post.
Proof.
  revert s; induction needle as [|a needle IH]; intros s; simpl.
  - split; [intros _; now exists s | reflexivity].
  - destruct s as [|b s].
    + split; [discriminate | intros [post H]; discriminate H].
    + rewrite andb_true_iff, N.eqb_eq, IH. split.
      * intros [-> [post ->]]. now exists post.
      * intros [post H]. injection H as -> ->. split; [reflexivity | now exists post].
Qed.

(** [str_contains] is the substring test. *)
Lemma str_contains_iff (needle s : pystr) :
  str_contains needle s = true <-> exists pre post, s = pre ++ needle ++ post.
Proof.
  induction s as [|c s IH].
  - simpl. rewrite orb_false_r, starts_with_iff. split.
    + intros [post H]. now exists [], post.
    + intros [pre [post H]]. destruct pre; [now exists post | discriminate H].
  - cbn [str_contains]. rewrite orb_true_iff, starts_with_iff, IH. split.
    + intros [[post H] | [pre [post H]]].
      * now exists [], post.
      * exists (c :: pre), post. simpl. now rewrite H.
    + intros [[|c' pre] [post H]].
      * left. now exists post.
      * right. injection H as _ H. now exists pre, post.
Qed.

Lemma pystr_eqb_eq (a b : pystr) : pystr_eqb a b = true <-> a = b.
Proof.
  unfold pystr_eqb. destruct (list_eq_dec N.eq_dec a b); split; congruence.
Qed.

Lemma pystr_eqb_neq (a b : pystr) : pystr_eqb a b = false <-> a <> b.
Proof.
  unfold pystr_eqb. destruct (list_eq_dec N.eq_dec a b); split; congruence.
Qed.

(** [str.encode] fails exactly on a string holding a code point that has no
    UTF-8 form, and then with [UnicodeEncodeError]. *)
Lemma encode_from_ok (object s : pystr) :
  forallb encodable s = true ->
  forall pos, exists data, encode_from object pos s = inr data.
Proof.
  induction s as [|c s IH]; simpl; intros H pos.
  - now exists [].
  - apply andb_true_iff in H as [Hc Hs]. rewrite Hc.
    destruct (IH Hs (S pos)) as [rest ->]. simpl. now eexists.
Qed.

Lemma run_length_le (s : pystr) : (run_length s <= List.length s)%nat.
Proof.
  induction s as [|c s IH]; simpl; [lia|]. destruct (encodable c); lia.
Qed.

Lemma encode_from_error (object s : pystr) :
  forall pos e, encode_from object pos s = inl e ->
    forallb encodable s = false /\
    exists start stop,
      e = UnicodeEncodeError object start stop /\
      (pos <= start < stop)%nat /\ (stop <= pos + List.length s)%nat.
Proof.
  induction s as [|c s IH]; simpl; intros pos e H.
  - discriminate H.
  - destruct (encodable c) eqn:Hc.
    + destruct (encode_from object (S pos) s) as [e'|rest] eqn:Hs;
        simpl in H; [|discriminate H].
      injection H as <-. destruct (IH _ _ Hs) as [Hf [start [stop [-> [Hr Hs']]]]].
      split; [exact Hf|]. exists start, stop. split; [reflexivity | lia].
    + injection H as <-. split; [reflexivity|].
      exists pos, (pos + S (run_length s))%nat.
      pose proof (run_length_le s). split; [reflexivity | lia].
Qed.

Lemma encode_from_value (object s : pystr) :
  forall pos data, encode_from object pos s = inr data -> forallb encodable s = true.
Proof.
  induction s as [|c s IH]; simpl; intros pos data H.
  - reflexivity.
  - destruct (encodable c); [|discriminate H].
    destruct (encode_from object (S pos) s) as [e|rest] eqn:Hs; [discriminate H|].
    exact (IH _ _ Hs).
Qed.

Lemma str_encode_ok_iff (s : pystr) :
  (exists data, str_encode s = inr data) <-> forallb encodable s = true.
Proof.
  unfold str_encode. split.
  - intros [data H]. exact (encode_from_value _ _ _ _ H).
  - intros H. exact (encode_from_ok s s H 0%nat).
Qed.

(** An exception raised by [encode] is a [UnicodeEncodeError] on the string
    itself. *)
Lemma str_encode_error (s : pystr) (e : exn) :
  str_encode s = inl e ->
  forallb encodable s = false /\
  exists start stop,
    e = UnicodeEncodeError s start stop /\
    (start < stop <= List.length s)%nat.
Proof.
  intros H. destruct (encode_from_error _ _ _ _ H) as [Hf [start [stop [-> [Hr Hs]]]]].
  split; [exact Hf|]. exists start, stop. split; [reflexivity | lia].
Qed.

Lemma land_255_lt (x : N) : (N.land x 0xFF < 256)%N.
Proof.
  change 0xFF%N with (N.ones 8). rewrite N.land_ones.
  apply N.mod_lt. discriminate.
Qed.

Lemma digest_head_lt (data : pybytes) : (digest_head data < 256)%N.
Proof. unfold digest_head, MD5.digest. cbn [MD5.bytes_of_word app hd]. apply land_255_lt. Qed.

Lemma digest_length (data : pybytes) : List.length (MD5.digest data) = 16%nat.
Proof. reflexivity. Qed.

Lemma hexdigest_prefix (data : pybytes) :
  firstn 2 (MD5.hexdigest data) = MD5.hex_byte (digest_head data).
Proof. reflexivity. Qed.

Lemma hex_value_digit (n : N) :
  (n < 16)%N -> hex_value (MD5.hex_digit n) = Some (Z.of_N n).
Proof.
  intros H. destruct n as [|p]; [reflexivity|].
  do 4 (destruct p as [p|p|]; try reflexivity; try (exfalso; lia)).
Qed.

Lemma octet_digits (b : N) :
  Z.of_N b = 16 * Z.of_N (N.shiftr b 4) + Z.of_N (N.land b 0xF).
Proof.
  rewrite N.shiftr_div_pow2. change 0xF%N with (N.ones 4). rewrite N.land_ones.
  change (2 ^ 4)%N with 16%N.
  rewrite N2Z.inj_div, N2Z.inj_mod. change (Z.of_N 16) with 16.
  pose proof (Z.div_mod (Z.of_N b) 16 ltac:(discriminate)). lia.
Qed.

(** Reading back the two hexadecimal characters of an octet gives the octet. *)
Lemma int_base16_hex_byte (b : N) :
  (b < 256)%N -> int_base16 (MD5.hex_byte b) = inr (Z.of_N b).
Proof.
  intros Hb. unfold int_base16, MD5.hex_byte. cbn [hex_digits].
  assert (Hhi : (N.shiftr b 4 < 16)%N).
  { rewrite N.shiftr_div_pow2. change (2 ^ 4)%N with 16%N.
    apply N.Div0.div_lt_upper_bound. exact Hb. }
  assert (Hlo : (N.land b 0xF < 16)%N).
  { change 0xF%N with (N.ones 4). rewrite N.land_ones. apply N.mod_lt. discriminate. }
  rewrite (hex_value_digit _ Hhi), (hex_value_digit _ Hlo).
  unfold ok. f_equal. pose proof (octet_digits b). lia.
Qed.

(** The index in closed form: the first octet of the digest of the encoded
    prompt, reduced modulo the length of the bucket. *)
Lemma wallpaper_index_encoded (prompt : pystr) (bucket : list pystr) (data : pybytes) :
  str_encode prompt = inr data ->
  wallpaper_index prompt bucket = py_mod (Z.of_N (digest_head data)) (len bucket).
Proof.
  intros H. unfold wallpaper_index. rewrite H. cbn [bind].
  rewrite hexdigest_prefix, (int_base16_hex_byte _ (digest_head_lt data)).
  reflexivity.
Qed.

Lemma wallpaper_index_error (prompt : pystr) (bucket : list pystr) (e : exn) :
  str_encode prompt = inl e -> wallpaper_index prompt bucket = inl e.
Proof. intros H. unfold wallpaper_index. now rewrite H. Qed.

Lemma getitem_in_range {A} (l : list A) (i : Z) :
  0 <= i < len l ->
  exists x, getitem l i = inr x /\ nth_error l (Z.to_nat i) = Some x.
Proof.
  intros H. unfold getitem.
  destruct (i <? 0) eqn:Hn; [apply Z.ltb_lt in Hn; lia|].
  replace ((0 <=? i) && (i <? len l)) with true
    by (symmetry; apply andb_true_iff; split; [apply Z.leb_le | apply Z.ltb_lt]; lia).
  destruct (nth_error l (Z.to_nat i)) as [x|] eqn:Hx.
  - now exists x.
  - apply nth_error_None in Hx. unfold len in H. lia.
Qed.

Lemma py_mod_pos (n m : Z) : 0 < m -> py_mod n m = inr (n mod m).
Proof.
  intros H. unfold py_mod. destruct (m =? 0) eqn:E; [apply Z.eqb_eq in E; lia | reflexivity].
Qed.

(** ** The catalog *)

Lemma select_category_find items text dflt :
  select_category items text dflt =
  match find (fun kv => str_contains (fst kv) text) items with
  | Some kv => snd kv
  | None => dflt
  end.
Proof.
  induction items as [|[category wallpapers] items IH]; simpl.
  - reflexivity.
  - destruct (str_contains category text); [reflexivity | exact IH].
Qed.

(** First match in declaration order. *)
Lemma select_category_first pre category wallpapers post text dflt :
  str_contains category text = true ->
  (forall kv, In kv pre -> str_contains (fst kv) text = false) ->
  select_category (pre ++ (category, wallpapers) :: post) text dflt = wallpapers.
Proof.
  intros Hc. induction pre as [|[c ws] pre IH]; simpl; intros Hpre.
  - now rewrite Hc.
  - pose proof (Hpre (c, ws) (or_introl eq_refl)) as Hf. simpl in Hf. rewrite Hf.
    apply IH.
    intros kv Hin. apply Hpre. now right.
Qed.

Lemma select_category_none items text dflt :
  (forall kv, In kv items -> str_contains (fst kv) text = false) ->
  select_category items text dflt = dflt.
Proof.
  induction items as [|[c ws] items IH]; simpl; intros H.
  - reflexivity.
  - pose proof (H (c, ws) (or_introl eq_refl)) as Hf. simpl in Hf. rewrite Hf.
    apply IH.
    intros kv Hin. apply H. now right.
Qed.

Lemma select_category_cases items text dflt :
  select_category items text dflt = dflt \/
  In (select_category items text dflt) (map snd items).
Proof.
  induction items as [|[c ws] items IH]; simpl.
  - now left.
  - destruct (str_contains c text); [right; now left | tauto].
Qed.

Lemma bucket_nonempty (bucket : list pystr) : In bucket buckets -> 0 < len bucket.
Proof.
  unfold buckets. simpl.
  intros H; repeat (destruct H as [<- | H]; [reflexivity|]); contradiction.
Qed.

Lemma bucket_templates (bucket : list pystr) (t : pystr) :
  In bucket buckets -> In t bucket -> In t templates.
Proof. intros Hb Ht. unfold templates. apply in_concat. now exists bucket. Qed.

Section Selection.

Variable unicode_lower : pystr -> pystr.
Variable str_exn : exn -> pystr.

Lemma selected_wallpapers_bucket (request : WallpaperRequest.t) :
  In (selected_wallpapers unicode_lower request) buckets.
Proof.
  unfold selected_wallpapers, buckets.
  destruct (select_category_cases sample_wallpapers
              (combined_text unicode_lower request) default_wallpapers) as [-> | H].
  - now left.
  - now right.
Qed.

(** Once the prompt is encoded nothing else in the [try] block can raise. *)
Lemma selected_template_encoded (request : WallpaperRequest.t) (data : pybytes) :
  str_encode (WallpaperRequest.prompt request) = inr data ->
  let bucket := selected_wallpapers unicode_lower request in
  let i := Z.of_N (digest_head data) mod len bucket in
  0 <= i < len bucket /\
  wallpaper_index (WallpaperRequest.prompt request) bucket = inr i /\
  exists t, selected_template unicode_lower request = inr t /\
            nth_error bucket (Z.to_nat i) = Some t.
Proof.
  intros H bucket i.
  pose proof (bucket_nonempty _ (selected_wallpapers_bucket request)) as Hlen.
  fold bucket in Hlen.
  assert (Hi : 0 <= i < len bucket) by (apply Z.mod_pos_bound; exact Hlen).
  assert (Hidx : wallpaper_index (WallpaperRequest.prompt request) bucket = inr i).
  { rewrite (wallpaper_index_encoded _ _ _ H). now apply py_mod_pos. }
  split; [exact Hi|]. split; [exact Hidx|].
  destruct (getitem_in_range bucket i Hi) as [t [Hg Hn]].
  exists t. split; [|exact Hn].
  unfold selected_template. fold bucket. rewrite Hidx. exact Hg.
Qed.

Lemma try_body_encoded (request : WallpaperRequest.t) (data : pybytes) :
  str_encode (WallpaperRequest.prompt request) = inr data ->
  exists t, selected_template unicode_lower request = inr t /\
    In t (selected_wallpapers unicode_lower request) /\
    try_body unicode_lower request =
      inr (adjust_dimensions (WallpaperRequest.aspect_ratio request) t).
Proof.
  intros H. destruct (selected_template_encoded request data H) as [_ [_ [t [Ht Hn]]]].
  exists t. split; [exact Ht|]. split; [exact (nth_error_In _ _ Hn)|].
  unfold try_body. now rewrite Ht.
Qed.

(** The only exception the [try] block can raise comes from [encode]. *)
Lemma try_body_error (request : WallpaperRequest.t) (e : exn) :
  try_body unicode_lower request = inl e <->
  str_encode (WallpaperRequest.prompt request) = inl e.
Proof.
  destruct (str_encode (WallpaperRequest.prompt request)) as [e'|data] eqn:He.
  - unfold try_body, selected_template.
    rewrite (wallpaper_index_error _ _ _ He). simpl. reflexivity.
  - destruct (try_body_encoded request data He) as [t [_ [_ ->]]].
    split; discriminate.
Qed.

(** The faults the handler can catch: [encode] refusing the prompt. *)
Lemma handler_fault (request : WallpaperRequest.t) (e : exn) :
  try_body unicode_lower request = inl e ->
  forallb encodable (WallpaperRequest.prompt request) = false /\
  exists start stop,
    e = UnicodeEncodeError (WallpaperRequest.prompt request) start stop /\
    (start < stop <= List.length (WallpaperRequest.prompt request))%nat.
Proof.
  intros H. apply try_body_error in H. exact (str_encode_error _ _ H).
Qed.

(** A wallpaper that is picked is a template of the catalog or of the
    default bucket. *)
Lemma selected_template_in_templates (request : WallpaperRequest.t) (t : pystr) :
  selected_template unicode_lower request = inr t -> In t templates.
Proof.
  intros H.
  destruct (str_encode (WallpaperRequest.prompt request)) as [e|data] eqn:He.
  - unfold selected_template in H.
    rewrite (wallpaper_index_error _ _ _ He) in H. discriminate H.
  - destruct (try_body_encoded request data He) as [t' [Ht [Hin _]]].
    rewrite Ht in H. injection H as <-.
    exact (bucket_templates _ _ (selected_wallpapers_bucket request) Hin).
Qed.

End Selection.

(** ** The selection as specified *)

Section Specification.

Variable unicode_lower : pystr -> pystr.
Variable str_exn : exn -> pystr.

(** C1 (determinism). The response of the handler is a function of the
    prompt, the style and the aspect ratio alone: it is the same in every
    process state, in particular in the state a first call leaves behind, so
    two calls with identical arguments return identical [image_url] values. *)
Theorem selection_deterministic :
  exists select : pystr -> option pystr -> pystr -> WallpaperResponse.t,
    forall (prompt : pystr) (style : option pystr) (aspect_ratio : pystr)
           (p : process),
      let request := WallpaperRequest.mk prompt aspect_ratio style in
      let first := generate_wallpaper unicode_lower str_exn request p in
      let second := generate_wallpaper unicode_lower str_exn request (snd first) in
      fst first = select prompt style aspect_ratio /\
      fst second = select prompt style aspect_ratio /\
      WallpaperResponse.image_url (fst first) = WallpaperResponse.image_url (fst second).
Proof.
  exists (fun prompt style aspect_ratio =>
            fst (generate_wallpaper unicode_lower str_exn
                   (WallpaperRequest.mk prompt aspect_ratio style)
                   (mk_process None None []))).
  intros prompt style aspect_ratio p request first second.
  assert (H : forall q q',
             fst (generate_wallpaper unicode_lower str_exn request q) =
             fst (generate_wallpaper unicode_lower str_exn request q')).
  { intros q q'. unfold generate_wallpaper.
    destruct (try_body unicode_lower request); reflexivity. }
  subst first second.
  split; [apply H|]. split; [apply H|]. f_equal. apply H.
Qed.

(** C2 (index selection). When the prompt encodes to [data], the index is
    the number [16 * dh + dl] written by the first two hexadecimal characters
    of the MD5 hexdigest of [data] (the original prompt, not the lower-cased one),
    reduced modulo the length of the selected bucket, and the wallpaper
    picked is the element of the bucket at that index. For the prompt
    "Beautiful sunset over mountains with purple sky" with style "nature"
    and aspect ratio "9:16" the bucket is the one of "nature", the two
    characters are "e5" and the index is 229 mod 3 = 1. *)
Theorem index_selection (request : WallpaperRequest.t) (data : pybytes) :
  str_encode (WallpaperRequest.prompt request) = inr data ->
  let bucket := selected_wallpapers unicode_lower request in
  let prefix := firstn 2 (MD5.hexdigest data) in
  (exists hi lo dh dl n,
      prefix = [hi; lo] /\
      hex_value hi = Some dh /\ hex_value lo = Some dl /\ n = 16 * dh + dl /\
      int_base16 prefix = inr n /\ 0 <= n < 256 /\
      wallpaper_index (WallpaperRequest.prompt request) bucket = inr (n mod len bucket) /\
      exists t,
        nth_error bucket (Z.to_nat (n mod len bucket)) = Some t /\
        selected_template unicode_lower request = inr t) /\
  let scenario :=
    WallpaperRequest.init (py "Beautiful sunset over mountains with purple sky")
      (Some (py "9:16")) (Some (py "nature")) in
  selected_wallpapers unicode_lower scenario = bucket_of (py "nature") /\
  (exists d, str_encode (WallpaperRequest.prompt scenario) = inr d /\
             firstn 2 (MD5.hexdigest d) = py "e5") /\
  wallpaper_index (WallpaperRequest.prompt scenario) (bucket_of (py "nature")) = inr 1 /\
  forall p,
    WallpaperResponse.image_url (fst (generate_wallpaper unicode_lower str_exn scenario p)) =
    Some (py "https://images.unsplash.com/photo-1441974231531-c6227db76b6e?w=512&h=910&fit=crop&auto=format").
Proof.
  intros H bucket prefix. split.
  - destruct (selected_template_encoded unicode_lower request data H)
      as [Hi [Hidx [t [Ht Hn]]]].
    fold bucket in Hi, Hidx, Ht, Hn.
    pose proof (digest_head_lt data) as Hb.
    assert (Hhi : (N.shiftr (digest_head data) 4 < 16)%N).
    { rewrite N.shiftr_div_pow2. change (2 ^ 4)%N with 16%N.
      apply N.Div0.div_lt_upper_bound. exact Hb. }
    assert (Hlo : (N.land (digest_head data) 0xF < 16)%N).
    { change 0xF%N with (N.ones 4). rewrite N.land_ones.
      apply N.mod_lt. discriminate. }
    exists (MD5.hex_digit (N.shiftr (digest_head data) 4)),
           (MD5.hex_digit (N.land (digest_head data) 0xF)),
           (Z.of_N (N.shiftr (digest_head data) 4)),
           (Z.of_N (N.land (digest_head data) 0xF)),
           (Z.of_N (digest_head data)).
    subst prefix. rewrite hexdigest_prefix.
    split; [reflexivity|].
    split; [exact (hex_value_digit _ Hhi)|].
    split; [exact (hex_value_digit _ Hlo)|].
    split; [exact (octet_digits _)|].
    split; [exact (int_base16_hex_byte _ Hb)|].
    split; [lia|].
    split; [exact Hidx|].
    exists t. split; [exact Hn | exact Ht].
  - intros scenario.
    split; [vm_compute; reflexivity|].
    split; [exists (py "Beautiful sunset over mountains with purple sky");
            split; vm_compute; reflexivity|].
    split; [vm_compute; reflexivity|].
    intros p. vm_compute. reflexivity.
Qed.

(** C3 (category precedence). The text that is matched is the lower-cased
    prompt, one space, and the lower-cased style (empty when absent); the
    categories are tried in the order nature, city, abstract, space, dark,
    minimal, and the bucket selected is the one of the first category whose
    name is a substring of that text. *)
Theorem category_precedence (request : WallpaperRequest.t)
    (pre : list (pystr * list pystr)) (category : pystr)
    (wallpapers : list pystr) (post : list (pystr * list pystr)) :
  sample_wallpapers = pre ++ (category, wallpapers) :: post ->
  str_contains category (combined_text unicode_lower request) = true ->
  (forall kv, In kv pre ->
     str_contains (fst kv) (combined_text unicode_lower request) = false) ->
  combined_text unicode_lower request =
    str_lower unicode_lower (WallpaperRequest.prompt request) ++ py " " ++
    str_lower unicode_lower
      (match WallpaperRequest.style request with Some s => s | None => py "" end) /\
  map fst sample_wallpapers =
    [py "nature"; py "city"; py "abstract"; py "space"; py "dark"; py "minimal"] /\
  (exists a b, combined_text unicode_lower request = a ++ category ++ b) /\
  selected_wallpapers unicode_lower request = wallpapers.
Proof.
  intros Hsplit Hc Hpre.
  split; [reflexivity|]. split; [reflexivity|].
  split; [now apply str_contains_iff|].
  unfold selected_wallpapers. rewrite Hsplit.
  now apply select_category_first.
Qed.

End Specification.

(** C5 (index bounds). For each bucket of the catalog and for the default
    bucket, and for every prompt, an index that is computed lies between 0
    and the length of the bucket minus one, and reading the bucket at it
    succeeds; no bucket is empty. *)
Theorem index_bounds (bucket : list pystr) (prompt : pystr) (i : Z) :
  In bucket (map snd sample_wallpapers) \/ bucket = default_wallpapers ->
  wallpaper_index prompt bucket = inr i ->
  0 <= i <= len bucket - 1 /\
  bucket <> [] /\
  exists t, getitem bucket i = inr t /\ In t bucket.
Proof.
  intros Hb Hi.
  assert (Hin : In bucket buckets)
    by (destruct Hb as [Hb | ->]; [right; exact Hb | left; reflexivity]).
  pose proof (bucket_nonempty _ Hin) as Hlen.
  assert (Hr : 0 <= i < len bucket).
  { destruct (str_encode prompt) as [e|data] eqn:He.
    - rewrite (wallpaper_index_error _ _ _ He) in Hi. discriminate Hi.
    - rewrite (wallpaper_index_encoded _ _ _ He), (py_mod_pos _ _ Hlen) in Hi.
      injection Hi as <-. apply Z.mod_pos_bound. exact Hlen. }
  split; [lia|]. split.
  - intros ->. unfold len in Hlen. simpl in Hlen. lia.
  - destruct (getitem_in_range bucket i Hr) as [t [Hg Hn]].
    exists t. split; [exact Hg | exact (nth_error_In _ _ Hn)].
Qed.

Lemma templates_ok : forallb template_ok templates = true.
Proof. vm_compute. reflexivity. Qed.

Section Responses.

Variable unicode_lower : pystr -> pystr.
Variable str_exn : exn -> pystr.


(** C7, as amended (totality). A prompt without surrogate code points always
    gets a successful response and leaves the process state alone; a prompt
    with one gets [success = false]. The empty prompt is accepted: its
    combined text is the separator followed by the lower-cased style, and
    when that names no category the first template of the default bucket is
    returned, with the dimensions adjusted. *)
Theorem selection_total_on_encodable :
  (forall request p,
      forallb encodable (WallpaperRequest.prompt request) = true ->
      exists url,
        generate_wallpaper unicode_lower str_exn request p =
        (WallpaperResponse.mk true (Some url) (WallpaperRequest.prompt request)
           (WallpaperRequest.aspect_ratio request) None, p)) /\
  (forall request p,
      forallb encodable (WallpaperRequest.prompt request) = false ->
      WallpaperResponse.success
        (fst (generate_wallpaper unicode_lower str_exn request p)) = false) /\
  (forall aspect_ratio style p,
      let request := WallpaperRequest.mk (py "") aspect_ratio style in
      combined_text unicode_lower request =
        py " " ++ str_lower unicode_lower (style_or_empty request) /\
      ((forall kv, In kv sample_wallpapers ->
          str_contains (fst kv) (combined_text unicode_lower request) = false) ->
       selected_wallpapers unicode_lower request = default_wallpapers /\
       generate_wallpaper unicode_lower str_exn request p =
       (WallpaperResponse.mk true
          (Some (adjust_dimensions aspect_ratio
             (py "https://images.unsplash.com/photo-1506905925346-21bda4d32df4?w=512&h=910&fit=crop&auto=format")))
          (py "") aspect_ratio None, p))).
Proof.
  split; [|split].
  - intros request p H. apply str_encode_ok_iff in H as [data H].
    destruct (try_body_encoded unicode_lower request data H) as [t [_ [_ Hb]]].
    unfold generate_wallpaper. rewrite Hb. now eexists.
  - intros request p H. unfold generate_wallpaper.
    destruct (try_body unicode_lower request) as [e|url] eqn:Hb; [reflexivity|].
    destruct (str_encode (WallpaperRequest.prompt request)) as [e|data] eqn:He.
    + apply (proj2 (try_body_error unicode_lower request e)) in He.
      rewrite Hb in He. discriminate He.
    + assert (Hx : forallb encodable (WallpaperRequest.prompt request) = true)
        by (apply str_encode_ok_iff; now exists data).
      rewrite H in Hx. discriminate Hx.
  - intros aspect_ratio style p request. split; [reflexivity|].
    intros Hnone.
    assert (Hsel : selected_wallpapers unicode_lower request = default_wallpapers)
      by (apply select_category_none; exact Hnone).
    split; [exact Hsel|].
    unfold generate_wallpaper, try_body, selected_template.
    rewrite Hsel. reflexivity.
Qed.

(** C8 (wire shape). The response echoes the prompt and the aspect ratio of
    the request. When the [try] block completes with a URL the response is
    [success = true] with that URL and no error; when it raises [e] the
    response is [success = false] with [str(e)] as the error and no URL; and
    [success] is false exactly when an exception was caught. *)
Theorem wire_shape (request : WallpaperRequest.t) (p : process) :
  let response := fst (generate_wallpaper unicode_lower str_exn request p) in
  WallpaperResponse.prompt response = WallpaperRequest.prompt request /\
  WallpaperResponse.aspect_ratio response = WallpaperRequest.aspect_ratio request /\
  (forall url, try_body unicode_lower request = inr url ->
     response = WallpaperResponse.mk true (Some url) (WallpaperRequest.prompt request)
                  (WallpaperRequest.aspect_ratio request) None) /\
  (forall e, try_body unicode_lower request = inl e ->
     response = WallpaperResponse.mk false None (WallpaperRequest.prompt request)
                  (WallpaperRequest.aspect_ratio request) (Some (str_exn e))) /\
  (WallpaperResponse.success response = true <->
     exists url, try_body unicode_lower request = inr url) /\
  (WallpaperResponse.success response = false <->
     exists e, try_body unicode_lower request = inl e).
Proof.
  intros response. subst response. unfold generate_wallpaper.
  destruct (try_body unicode_lower request) as [e|url]; cbn [fst];
    repeat split; try reflexivity; try discriminate.
  - intros e' [= <-]. reflexivity.
  - intros [url H]. discriminate H.
  - intros _. now exists e.
  - intros url' [= <-]. reflexivity.
  - intros _. now exists url.
  - intros [e H]. discriminate H.
Qed.

(** C9 (exclusive fields). A response with [success = true] has no error and
    has an image URL; a response with [success = false] has no image URL
    (and has an error); no response carries both an error and an image URL. *)
Theorem success_error_exclusive (request : WallpaperRequest.t) (p : process) :
  let response := fst (generate_wallpaper unicode_lower str_exn request p) in
  (WallpaperResponse.success response = true ->
     WallpaperResponse.error response = None /\
     WallpaperResponse.image_url response <> None) /\
  (WallpaperResponse.success response = false ->
     WallpaperResponse.image_url response = None /\
     WallpaperResponse.error response <> None) /\
  ~ (WallpaperResponse.error response <> None /\ WallpaperResponse.image_url response <> None).
Proof.
  intros response. subst response. unfold generate_wallpaper.
  destruct (try_body unicode_lower request) as [e|url]; cbn [fst];
    repeat split; try discriminate; try reflexivity.
  - intros [_ H]. now apply H.
  - intros [H _]. now apply H.
Qed.

(** C4 (aspect-ratio remap). The response echoes the requested aspect ratio.
    The picked template reads [pre ++ "w=512&h=910" ++ post]. For "16:9" the
    URL returned is [pre ++ "w=910&h=512" ++ post] (landscape), for "1:1"
    [pre ++ "w=512&h=512" ++ post] (square), for "3:4"
    [pre ++ "w=512&h=683" ++ post] (a portrait of another height): each is
    what [replace] gives and differs from the template. For every other
    value, "9:16" and "21:9" among them, the template is returned as it is.
    For the prompt "Beautiful sunset over mountains with purple sky" with
    style "nature" the five URLs are spelled out. *)
Theorem aspect_ratio_remap (request : WallpaperRequest.t) (p : process) :
  let response := fst (generate_wallpaper unicode_lower str_exn request p) in
  let a := WallpaperRequest.aspect_ratio request in
  let sunset aspect_ratio :=
    WallpaperResponse.image_url
      (fst (generate_wallpaper unicode_lower str_exn
              (WallpaperRequest.init
                 (py "Beautiful sunset over mountains with purple sky")
                 (Some aspect_ratio) (Some (py "nature"))) p)) in
  WallpaperResponse.aspect_ratio response = a /\
  (forall t, selected_template unicode_lower request = inr t ->
     exists pre post,
       t = pre ++ py "w=512&h=910" ++ post /\
       (a = py "16:9" ->
          WallpaperResponse.image_url response =
            Some (pre ++ py "w=910&h=512" ++ post) /\
          WallpaperResponse.image_url response =
            Some (str_replace t (py "w=512&h=910") (py "w=910&h=512")) /\
          WallpaperResponse.image_url response <> Some t) /\
       (a = py "1:1" ->
          WallpaperResponse.image_url response =
            Some (pre ++ py "w=512&h=512" ++ post) /\
          WallpaperResponse.image_url response =
            Some (str_replace t (py "w=512&h=910") (py "w=512&h=512")) /\
          WallpaperResponse.image_url response <> Some t) /\
       (a = py "3:4" ->
          WallpaperResponse.image_url response =
            Some (pre ++ py "w=512&h=683" ++ post) /\
          WallpaperResponse.image_url response =
            Some (str_replace t (py "w=512&h=910") (py "w=512&h=683")) /\
          WallpaperResponse.image_url response <> Some t) /\
       (a <> py "16:9" -> a <> py "1:1" -> a <> py "3:4" ->
          WallpaperResponse.image_url response = Some t) /\
       (a = py "9:16" \/ a = py "21:9" ->
          WallpaperResponse.image_url response = Some t)) /\
  sunset (py "16:9") =
    Some (py "https://images.unsplash.com/photo-1441974231531-c6227db76b6e?w=910&h=512&fit=crop&auto=format") /\
  sunset (py "1:1") =
    Some (py "https://images.unsplash.com/photo-1441974231531-c6227db76b6e?w=512&h=512&fit=crop&auto=format") /\
  sunset (py "3:4") =
    Some (py "https://images.unsplash.com/photo-1441974231531-c6227db76b6e?w=512&h=683&fit=crop&auto=format") /\
  sunset (py "9:16") =
    Some (py "https://images.unsplash.com/photo-1441974231531-c6227db76b6e?w=512&h=910&fit=crop&auto=format") /\
  sunset (py "21:9") =
    Some (py "https://images.unsplash.com/photo-1441974231531-c6227db76b6e?w=512&h=910&fit=crop&auto=format").
Proof.
  intros response a sunset. subst response a sunset. split; [|split].
  - unfold generate_wallpaper.
    destruct (try_body unicode_lower request); reflexivity.
  - intros t Ht.
    pose proof (selected_template_in_templates unicode_lower request t Ht) as Hin.
    pose proof (proj1 (forallb_forall _ _) templates_ok t Hin) as Hok.
    unfold template_ok in Hok.
    destruct (cut base_dimensions t) as [[pre post]|]; [|discriminate Hok].
    apply andb_true_iff in Hok as [Heq Hall]. apply pystr_eqb_eq in Heq.
    assert (Hd : forall ad, In ad dimension_table ->
                   adjust_dimensions (fst ad) t = pre ++ snd ad ++ post /\
                   adjust_dimensions (fst ad) t <> t).
    { intros ad Had.
      pose proof (proj1 (forallb_forall _ _) Hall ad Had) as H.
      apply andb_true_iff in H as [H1 H2]. split; [now apply pystr_eqb_eq|].
      apply pystr_eqb_neq. now apply negb_true_iff. }
    assert (Hurl : WallpaperResponse.image_url
                     (fst (generate_wallpaper unicode_lower str_exn request p)) =
                   Some (adjust_dimensions (WallpaperRequest.aspect_ratio request) t)).
    { unfold generate_wallpaper, try_body. now rewrite Ht. }
    rewrite Hurl. exists pre, post. split; [exact Heq|].
    split; [|split; [|split; [|split]]].
    + intros ->.
      destruct (Hd (py "16:9", py "w=910&h=512") (or_introl eq_refl)) as [H1 H2].
      cbn [fst snd] in H1, H2. split; [now rewrite H1|]. split; [reflexivity|].
      intros [= H]. now apply H2.
    + intros ->.
      destruct (Hd (py "1:1", py "w=512&h=512") (or_intror (or_introl eq_refl)))
        as [H1 H2].
      cbn [fst snd] in H1, H2. split; [now rewrite H1|]. split; [reflexivity|].
      intros [= H]. now apply H2.
    + intros ->.
      destruct (Hd (py "3:4", py "w=512&h=683")
                  (or_intror (or_intror (or_introl eq_refl)))) as [H1 H2].
      cbn [fst snd] in H1, H2. split; [now rewrite H1|]. split; [reflexivity|].
      intros [= H]. now apply H2.
    + intros H1 H2 H3. unfold adjust_dimensions.
      apply pystr_eqb_neq in H1, H2, H3. now rewrite H1, H2, H3.
    + intros [-> | ->]; reflexivity.
  - split; [vm_compute; reflexivity|].
    split; [vm_compute; reflexivity|].
    split; [vm_compute; reflexivity|].
    split; vm_compute; reflexivity.
Qed.

End Responses.

(** C10 (substitution applies). Every template of the catalog and of the
    default bucket is of the form [pre ++ "w=512&h=910" ++ post]; for each
    of the aspect ratios "16:9", "1:1" and "3:4" the adjusted URL is
    [pre ++ dims ++ post] with the dimensions of that ratio, and differs
    from the template. *)
Theorem substitution_applies (t : pystr) :
  In t (concat (map snd sample_wallpapers)) \/ In t default_wallpapers ->
  exists pre post,
    t = pre ++ py "w=512&h=910" ++ post /\
    forall aspect_ratio dims,
      In (aspect_ratio, dims)
         [ (py "16:9", py "w=910&h=512");
           (py "1:1", py "w=512&h=512");
           (py "3:4", py "w=512&h=683") ] ->
      adjust_dimensions aspect_ratio t = pre ++ dims ++ post /\
      adjust_dimensions aspect_ratio t <> t.
Proof.
  intros H.
  assert (Hin : In t templates).
  { unfold templates, buckets. cbn [concat]. apply in_or_app. tauto. }
  pose proof (proj1 (forallb_forall _ _) templates_ok t Hin) as Hok.
  unfold template_ok in Hok.
  destruct (cut base_dimensions t) as [[pre post]|]; [|discriminate Hok].
  apply andb_true_iff in Hok as [Heq Hall].
  exists pre, post. split; [now apply pystr_eqb_eq|].
  intros aspect_ratio dims Hd.
  pose proof (proj1 (forallb_forall _ _) Hall (aspect_ratio, dims) Hd) as Had.
  cbn [fst snd] in Had. apply andb_true_iff in Had as [H1 H2].
  split; [now apply pystr_eqb_eq|].
  apply pystr_eqb_neq. now apply negb_true_iff.
Qed.

(** ** Runs of the handler

    The statements above, applied to concrete requests. The case tables are
    not consulted on ASCII text, so any function can stand in for them. *)

(** The index follows the prompt as sent, not its lower-cased form: "Dark"
    and "dark" select the same bucket and different wallpapers. *)
Example index_of_original_prompt (unicode_lower : pystr -> pystr) :
  let upper := WallpaperRequest.init (py "Dark") None None in
  let lower := WallpaperRequest.init (py "dark") None None in
  combined_text unicode_lower upper = combined_text unicode_lower lower /\
  selected_wallpapers unicode_lower upper = bucket_of (py "dark") /\
  selected_wallpapers unicode_lower lower = bucket_of (py "dark") /\
  wallpaper_index (py "Dark") (bucket_of (py "dark")) = inr 1 /\
  wallpaper_index (py "dark") (bucket_of (py "dark")) = inr 0.
Proof.
  intros upper lower.
  split; [vm_compute; reflexivity|].
  split; [vm_compute; reflexivity|].
  split; [vm_compute; reflexivity|].
  split; vm_compute; reflexivity.
Qed.

Lemma index_selection_witness :
  str_encode (py "Dark") = inr [68; 97; 114; 107]%N /\
  exists n,
    int_base16 (firstn 2 (MD5.hexdigest [68; 97; 114; 107]%N)) = inr n /\
    wallpaper_index (py "Dark") (bucket_of (py "dark"))
      = inr (n mod len (bucket_of (py "dark"))).
Proof.
  assert (He : str_encode (py "Dark") = inr [68; 97; 114; 107]%N)
    by (vm_compute; reflexivity).
  split; [exact He|].
  destruct (proj1 (index_selection (fun s => s) (fun _ => py "error")
                     (WallpaperRequest.init (py "Dark") None None)
                     [68; 97; 114; 107]%N He))
    as [hi [lo [dh [dl [n [_ [_ [_ [_ [Hn [_ [Hi _]]]]]]]]]]]].
  exists n. split; [exact Hn | exact Hi].
Defined.

Lemma category_precedence_witness :
  let request :=
    WallpaperRequest.init (py "Minimal DARK cityscape at night") None None in
  let text := combined_text (fun s => s) request in
  text = py "minimal dark cityscape at night " /\
  str_contains (py "nature") text = false /\
  str_contains (py "city") text = true /\
  str_contains (py "dark") text = true /\
  str_contains (py "minimal") text = true /\
  selected_wallpapers (fun s => s) request = bucket_of (py "city").
Proof.
  intros request text.
  repeat (split; [vm_compute; reflexivity|]).
  refine (proj2 (proj2 (proj2
    (category_precedence (fun s => s) request
       (firstn 1 sample_wallpapers) (py "city") (bucket_of (py "city"))
       (skipn 2 sample_wallpapers) eq_refl eq_refl _)))).
  intros kv [<- | []]. vm_compute. reflexivity.
Defined.

Lemma aspect_ratio_remap_witness :
  WallpaperResponse.image_url
    (fst (generate_wallpaper (fun s => s) (fun _ => py "error")
            (WallpaperRequest.init
               (py "Beautiful sunset over mountains with purple sky")
               (Some (py "16:9")) (Some (py "nature")))
            (mk_process None None []))) =
  Some (py "https://images.unsplash.com/photo-1441974231531-c6227db76b6e?w=910&h=512&fit=crop&auto=format") /\
  WallpaperResponse.image_url
    (fst (generate_wallpaper (fun s => s) (fun _ => py "error")
            (WallpaperRequest.init
               (py "Beautiful sunset over mountains with purple sky")
               (Some (py "21:9")) (Some (py "nature")))
            (mk_process None None []))) =
  Some (py "https://images.unsplash.com/photo-1441974231531-c6227db76b6e?w=512&h=910&fit=crop&auto=format").
Proof.
  pose proof (proj2 (proj2 (aspect_ratio_remap (fun s => s) (fun _ => py "error")
                              (WallpaperRequest.init (py "") None None)
                              (mk_process None None [])))) as H.
  cbv zeta in H. split.
  - exact (proj1 H).
  - exact (proj2 (proj2 (proj2 (proj2 H)))).
Defined.

Lemma index_bounds_witness :
  (In default_wallpapers (map snd sample_wallpapers) \/
   default_wallpapers = default_wallpapers) /\
  wallpaper_index (py "quantum physics diagram") default_wallpapers = inr 0 /\
  0 <= 0 <= len default_wallpapers - 1.
Proof.
  assert (Hi : wallpaper_index (py "quantum physics diagram") default_wallpapers
               = inr 0) by (vm_compute; reflexivity).
  split; [right; reflexivity|]. split; [exact Hi|].
  exact (proj1 (index_bounds default_wallpapers (py "quantum physics diagram") 0
                  (or_intror eq_refl) Hi)).
Defined.


Lemma selection_total_witness :
  let request := WallpaperRequest.init (py "") (Some (py "1:1")) None in
  forallb encodable (WallpaperRequest.prompt request) = true /\
  exists url,
    generate_wallpaper (fun s => s) (fun _ => py "error") request
      (mk_process None None []) =
    (WallpaperResponse.mk true (Some url) (py "") (py "1:1") None,
     mk_process None None []).
Proof.
  intros request.
  assert (He : forallb encodable (WallpaperRequest.prompt request) = true) by reflexivity.
  split; [exact He|].
  exact (proj1 (selection_total_on_encodable (fun s => s) (fun _ => py "error"))
           request (mk_process None None []) He).
Defined.

Lemma substitution_applies_witness :
  let t := py "https://images.unsplash.com/photo-1519501025264-65ba15a82390?w=512&h=910&fit=crop&auto=format" in
  (In t (concat (map snd sample_wallpapers)) \/ In t default_wallpapers) /\
  exists pre post,
    t = pre ++ py "w=512&h=910" ++ post /\
    adjust_dimensions (py "3:4") t = pre ++ py "w=512&h=683" ++ post.
Proof.
  intros t.
  assert (H : In t (concat (map snd sample_wallpapers)) \/ In t default_wallpapers).
  { left. cbn [sample_wallpapers map snd concat app In]. do 4 right. left. reflexivity. }
  split; [exact H|].
  destruct (substitution_applies t H) as [pre [post [Ht Hd]]].
  exists pre, post. split; [exact Ht|].
  apply Hd. cbn [In]. right. right. left. reflexivity.
Defined.

(** C7 as stated does not hold. A prompt made of a lone surrogate is a
    string, and [encode] raises on it: the handler answers
    [success = false]. And the empty prompt does not always fall through to
    the default bucket: with the style "nature" the combined text is
    " nature", the "nature" bucket is selected, and the wallpaper returned is
    not one of the default bucket. *)
Lemma selection_total_counterexample :
  (forall unicode_lower str_exn p,
      fst (generate_wallpaper unicode_lower str_exn
             (WallpaperRequest.init [0xD800%N] None None) p) =
      WallpaperResponse.mk false None [0xD800%N] (py "9:16")
        (Some (str_exn (UnicodeEncodeError [0xD800%N] 0 1)))) /\
  (forall unicode_lower str_exn p,
      let request := WallpaperRequest.init (py "") None (Some (py "nature")) in
      combined_text unicode_lower request = py " nature" /\
      selected_wallpapers unicode_lower request = bucket_of (py "nature") /\
      selected_wallpapers unicode_lower request <> default_wallpapers /\
      exists url,
        WallpaperResponse.image_url
          (fst (generate_wallpaper unicode_lower str_exn request p)) = Some url /\
        url = py "https://images.unsplash.com/photo-1501594907352-04cda38ebc29?w=512&h=910&fit=crop&auto=format" /\
        ~ In url default_wallpapers).
Proof.
  split.
  - intros unicode_lower str_exn p. reflexivity.
  - intros unicode_lower str_exn p request.
    split; [vm_compute; reflexivity|].
    split; [vm_compute; reflexivity|].
    split; [vm_compute; discriminate|].
    eexists. split; [vm_compute; reflexivity|].
    split; [reflexivity|].
    cbn [default_wallpapers In]. intros H.
    repeat (destruct H as [H | H]; [vm_compute in H; discriminate H|]).
    exact H.
Qed.

(** * Further properties of the wallpaper handler *)

(** ** Strings *)

(** A needle that does not hold the separator occurs in [a ++ sep :: b] only
    inside [a] or inside [b]. *)
Lemma str_contains_separated (needle a b : pystr) (sep : codepoint) :
  ~ In sep needle ->
  str_contains needle (a ++ sep :: b) =
  str_contains needle a || str_contains needle b.
Proof.
  intros Hsep.
  apply eq_true_iff_eq. rewrite orb_true_iff, !str_contains_iff. split.
  - intros [pre [post H]].
    apply app_eq_app in H as [l [[Ha Hn] | [Hp Hb]]].
    + apply app_eq_app in Hn as [l2 [[Hl Hb] | [Hl Hpost]]].
      * destruct l2 as [|x l2].
        -- left. exists pre, []. rewrite app_nil_r in Hl. rewrite Ha, Hl.
           now rewrite app_nil_r.
        -- injection Hb as <- _. exfalso. apply Hsep. rewrite Hl.
           apply in_or_app. right. now left.
      * left. exists pre, l2. now rewrite Ha, Hl.
    + destruct l as [|x l].
      * simpl in Hb. destruct needle as [|y needle].
        -- left. now exists [], a.
        -- injection Hb as <- _. exfalso. apply Hsep. now left.
      * injection Hb as _ Hb. right. now exists l, post.
  - intros [[pre [post H]] | [pre [post H]]].
    + exists pre, (post ++ sep :: b). rewrite H. now rewrite <- !app_assoc.
    + exists (a ++ sep :: pre), post. rewrite H. now rewrite <- app_assoc.
Qed.

(** Without an occurrence of [old], [replace] returns the string as it is. *)
Lemma replace_from_absent (old new s : pystr) :
  str_contains old s = false -> replace_from old new 0 s = s.
Proof.
  induction s as [|c s IH]; intros H.
  - reflexivity.
  - cbn [str_contains] in H. apply orb_false_iff in H as [Hp Hs].
    cbn [replace_from]. rewrite Hp. f_equal. exact (IH Hs).
Qed.

Lemma encode_from_position (object s : pystr) :
  forall pos e, encode_from object pos s = inl e ->
    exists k,
      e = UnicodeEncodeError object (pos + k) (pos + k + run_length (skipn k s)) /\
      forallb encodable (firstn k s) = true /\
      exists c, nth_error s k = Some c /\ encodable c = false.
Proof.
  induction s as [|c s IH]; simpl; intros pos e H.
  - discriminate H.
  - destruct (encodable c) eqn:Hc.
    + destruct (encode_from object (S pos) s) as [e'|rest] eqn:Hs;
        simpl in H; [|discriminate H].
      injection H as <-. destruct (IH _ _ Hs) as [k [-> [Hf Hn]]].
      exists (S k). split; [|split].
      * cbn [skipn]. f_equal; lia.
      * simpl. now rewrite Hc, Hf.
      * exact Hn.
    + injection H as <-. exists 0%nat. split; [|split].
      * cbn [skipn run_length]. rewrite Hc. f_equal; lia.
      * reflexivity.
      * exists c. now split.
Qed.

Lemma photos_ok : forallb photo_ok templates = true.
Proof. vm_compute. reflexivity. Qed.

Lemma categories_without_space :
  forallb (fun kv => negb (existsb (N.eqb 32) (fst kv))) sample_wallpapers = true.
Proof. vm_compute. reflexivity. Qed.

Lemma lor_lt_256 (a b : N) : (a < 256 -> b < 256 -> N.lor a b < 256)%N.
Proof.
  intros Ha Hb.
  destruct (N.eq_dec (N.lor a b) 0) as [E|E]; [rewrite E; reflexivity|].
  change 256%N with (2 ^ 8)%N. apply N.log2_lt_pow2; [lia|].
  rewrite N.log2_lor. apply N.max_lub_lt.
  - destruct (N.eq_dec a 0) as [->|Ha0]; [reflexivity|].
    apply N.log2_lt_pow2; [lia | exact Ha].
  - destruct (N.eq_dec b 0) as [->|Hb0]; [reflexivity|].
    apply N.log2_lt_pow2; [lia | exact Hb].
Qed.

Lemma continuation_lt_256 (x : N) : (N.lor 0x80 (N.land x 0x3F) < 256)%N.
Proof.
  apply lor_lt_256; [reflexivity|].
  change 0x3F%N with (N.ones 6). rewrite N.land_ones.
  pose proof (N.mod_lt x (2 ^ 6) ltac:(discriminate)) as H.
  change (2 ^ 6)%N with 64%N in *. lia.
Qed.

Lemma shiftr_lt (c n bound : N) :
  (c < bound * 2 ^ n -> N.shiftr c n < bound)%N.
Proof.
  intros H. rewrite N.shiftr_div_pow2.
  apply N.Div0.div_lt_upper_bound. lia.
Qed.

Lemma utf8_char_octets (c : codepoint) :
  (c < 0x110000)%N ->
  Forall (fun b => (b < 256)%N) (utf8_char c) /\
  (1 <= List.length (utf8_char c) <= 4)%nat.
Proof.
  intros Hc. unfold utf8_char.
  destruct (c <? 0x80)%N eqn:H1.
  { apply N.ltb_lt in H1. split; [|simpl; lia].
    repeat constructor. lia. }
  destruct (c <? 0x800)%N eqn:H2.
  { apply N.ltb_lt in H2. split; [|simpl; lia].
    repeat constructor; [|apply continuation_lt_256].
    apply lor_lt_256; [reflexivity|].
    pose proof (shiftr_lt c 6 32 H2). lia. }
  destruct (c <? 0x10000)%N eqn:H3.
  { apply N.ltb_lt in H3. split; [|simpl; lia].
    repeat constructor; try apply continuation_lt_256.
    apply lor_lt_256; [reflexivity|].
    pose proof (shiftr_lt c 12 16 H3). lia. }
  split; [|simpl; lia].
  repeat constructor; try apply continuation_lt_256.
  apply lor_lt_256; [reflexivity|].
  assert (H4 : (c < 8 * 2 ^ 18)%N) by (change (8 * 2 ^ 18)%N with 0x200000%N; lia).
  pose proof (shiftr_lt c 18 8 H4). lia.
Qed.

Section WallpaperExtras.

Variable unicode_lower : pystr -> pystr.
Variable str_exn : exn -> pystr.

(** X1. The only exception the [try] block raises is the
    [UnicodeEncodeError] of [prompt.encode()]: it carries the prompt, starts
    at the first code point that cannot be encoded and ends after the run of
    such code points that starts there. [int], [%] and the list index never
    raise. *)
Theorem try_block_raises_only_in_encode (request : WallpaperRequest.t) (e : exn) :
  try_body unicode_lower request = inl e ->
  let prompt := WallpaperRequest.prompt request in
  exists start,
    e = UnicodeEncodeError prompt start
          (start + run_length (skipn start prompt)) /\
    forallb encodable (firstn start prompt) = true /\
    (exists c, nth_error prompt start = Some c /\ encodable c = false) /\
    (0 < run_length (skipn start prompt))%nat.
Proof.
  intros H prompt. apply try_body_error in H. unfold str_encode in H.
  destruct (encode_from_position _ _ _ _ H) as [k [-> [Hf [c [Hn Hc]]]]].
  exists k. fold prompt. split; [reflexivity|]. split; [exact Hf|].
  split; [now exists c|].
  fold prompt in Hn.
  destruct (nth_error_split _ _ Hn) as [l1 [l2 [Hp Hl]]].
  rewrite Hp, <- Hl.
  rewrite skipn_app, skipn_all, Nat.sub_diag. cbn [app skipn run_length].
  rewrite Hc. lia.
Qed.

(** X2. The handler never touches the agents. A successful call leaves the
    process as it was; a failed one adds exactly one [ERROR] record to the
    log, "Error generating wallpaper: " followed by the text it also returns
    as [error]. *)
Theorem wallpaper_handler_effects (request : WallpaperRequest.t) (p : process) :
  let out := generate_wallpaper unicode_lower str_exn request p in
  search_agent (snd out) = search_agent p /\
  chat_agent (snd out) = chat_agent p /\
  (WallpaperResponse.success (fst out) = true -> snd out = p) /\
  (WallpaperResponse.success (fst out) = false ->
   exists text,
     WallpaperResponse.error (fst out) = Some text /\
     log (snd out) = log p ++ [(ERROR, py "Error generating wallpaper: " ++ text)]).
Proof.
  intros out. subst out. unfold generate_wallpaper.
  destruct (try_body unicode_lower request) as [e|url]; cbn [fst snd].
  - split; [reflexivity|]. split; [reflexivity|].
    split; [discriminate|]. intros _. now exists (str_exn e).
  - split; [reflexivity|]. split; [reflexivity|].
    split; [reflexivity | discriminate].
Qed.

(** X3. A category matches exactly when its name occurs in the lower-cased
    prompt or in the lower-cased style: no match straddles the separating
    space. *)
Theorem category_in_prompt_or_style (request : WallpaperRequest.t)
    (category : pystr) (wallpapers : list pystr) :
  In (category, wallpapers) sample_wallpapers ->
  str_contains category (combined_text unicode_lower request) =
  str_contains category (str_lower unicode_lower (WallpaperRequest.prompt request))
  || str_contains category (str_lower unicode_lower (style_or_empty request)).
Proof.
  intros Hin. unfold combined_text. cbn [py list_ascii_of_string map app].
  apply str_contains_separated.
  pose proof (proj1 (forallb_forall _ _) categories_without_space _ Hin) as H.
  cbn [fst] in H. apply negb_true_iff in H.
  intros Hs. apply (proj2 (not_true_iff_false _) H).
  apply existsb_exists. exists 32%N. split; [exact Hs | reflexivity].
Qed.

(** X4. Every image URL is of one shape. The wallpaper picked is
    "https://images.unsplash.com/photo-<id>?w=512&h=910&fit=crop&auto=format"
    for some photo [id]; that [id] depends on the prompt and the style only,
    and for every aspect ratio the response carries the URL of the same
    photo with the dimensions of that ratio. *)
Theorem image_url_closed_form (request : WallpaperRequest.t) (t : pystr) :
  selected_template unicode_lower request = inr t ->
  exists id,
    t = url_of id (py "w=512&h=910") /\
    forall aspect_ratio p,
      WallpaperResponse.image_url
        (fst (generate_wallpaper unicode_lower str_exn
                (WallpaperRequest.mk (WallpaperRequest.prompt request)
                   aspect_ratio (WallpaperRequest.style request)) p)) =
      Some (url_of id (dimensions_of aspect_ratio)).
Proof.
  intros Ht.
  pose proof (selected_template_in_templates unicode_lower request t Ht) as Hin.
  pose proof (proj1 (forallb_forall _ _) photos_ok t Hin) as Hok.
  unfold photo_ok in Hok. apply andb_true_iff in Hok as [Hbase Htab].
  apply pystr_eqb_eq in Hbase.
  exists (photo_id t). split; [exact Hbase|].
  intros aspect_ratio p.
  assert (Hsame : selected_template unicode_lower
                    (WallpaperRequest.mk (WallpaperRequest.prompt request)
                       aspect_ratio (WallpaperRequest.style request)) = inr t)
    by exact Ht.
  unfold generate_wallpaper, try_body. rewrite Hsame.
  cbn [bind ok fst WallpaperResponse.image_url WallpaperRequest.aspect_ratio].
  f_equal.
  assert (Hd : forall ad, In ad dimension_table ->
                 str_replace t base_dimensions (snd ad) = url_of (photo_id t) (snd ad)).
  { intros ad Had. apply pystr_eqb_eq.
    exact (proj1 (forallb_forall _ _) Htab ad Had). }
  unfold adjust_dimensions, dimensions_of, dimension_table. cbn [find fst snd].
  destruct (pystr_eqb aspect_ratio (py "16:9")).
  { apply (Hd (py "16:9", py "w=910&h=512")). now left. }
  destruct (pystr_eqb aspect_ratio (py "1:1")).
  { apply (Hd (py "1:1", py "w=512&h=512")). right. now left. }
  destruct (pystr_eqb aspect_ratio (py "3:4")).
  { apply (Hd (py "3:4", py "w=512&h=683")). right. right. now left. }
  exact Hbase.
Qed.

(** X5. Where a picked wallpaper does not hold "w=512&h=910" the adjustment
    is a no-op for every aspect ratio: [replace] finds nothing and returns
    the string as it is. *)
Theorem adjust_dimensions_without_match (aspect_ratio t : pystr) :
  str_contains (py "w=512&h=910") t = false ->
  adjust_dimensions aspect_ratio t = t.
Proof.
  intros H. unfold adjust_dimensions, str_replace.
  change (py "w=512&h=910") with base_dimensions in H.
  destruct base_dimensions as [|b0 base] eqn:Hb; [discriminate Hb|].
  rewrite !(replace_from_absent _ _ _ H).
  destruct (pystr_eqb aspect_ratio (py "16:9")); [reflexivity|].
  destruct (pystr_eqb aspect_ratio (py "1:1")); [reflexivity|].
  destruct (pystr_eqb aspect_ratio (py "3:4")); reflexivity.
Qed.

End WallpaperExtras.

Ltac reach prompt :=
  exists prompt; split; [reflexivity|];
  intros unicode_lower; split; [vm_compute; reflexivity|];
  split; [vm_compute; reflexivity|];
  intros str_exn p; vm_compute; reflexivity.

(** X6. No entry of the catalog is dead: for every bucket the handler can
    select and every position in it there is an ASCII prompt that selects
    this bucket and hashes to this position, so that the handler returns the
    template that stands there. *)
Theorem every_template_is_served (bucket : list pystr) (i : Z) :
  In bucket (map snd sample_wallpapers) \/ bucket = default_wallpapers ->
  0 <= i < len bucket ->
  exists prompt,
    forallb is_ascii prompt = true /\
    forall unicode_lower,
      selected_wallpapers unicode_lower
        (WallpaperRequest.init prompt None None) = bucket /\
      wallpaper_index prompt bucket = inr i /\
      forall str_exn p,
        WallpaperResponse.image_url
          (fst (generate_wallpaper unicode_lower str_exn
                  (WallpaperRequest.init prompt None None) p)) =
        nth_error bucket (Z.to_nat i).
Proof.
  intros Hb Hi.
  cbn [map snd sample_wallpapers In] in Hb.
  destruct Hb as [[<- | [<- | [<- | [<- | [<- | [<- | []]]]]]] | ->].
  - change (0 <= i < 3) in Hi.
    assert (H : i = 0 \/ i = 1 \/ i = 2) by lia.
    destruct H as [-> | [-> | ->]];
      [reach (py "nature 2") | reach (py "nature 1") | reach (py "nature 0")].
  - change (0 <= i < 2) in Hi.
    assert (H : i = 0 \/ i = 1) by lia.
    destruct H as [-> | ->]; [reach (py "city 1") | reach (py "city 0")].
  - change (0 <= i < 2) in Hi.
    assert (H : i = 0 \/ i = 1) by lia.
    destruct H as [-> | ->]; [reach (py "abstract 0") | reach (py "abstract 1")].
  - change (0 <= i < 2) in Hi.
    assert (H : i = 0 \/ i = 1) by lia.
    destruct H as [-> | ->]; [reach (py "space 4") | reach (py "space 0")].
  - change (0 <= i < 2) in Hi.
    assert (H : i = 0 \/ i = 1) by lia.
    destruct H as [-> | ->]; [reach (py "dark 0") | reach (py "dark 3")].
  - change (0 <= i < 2) in Hi.
    assert (H : i = 0 \/ i = 1) by lia.
    destruct H as [-> | ->]; [reach (py "minimal 1") | reach (py "minimal 0")].
  - change (0 <= i < 4) in Hi.
    assert (H : i = 0 \/ i = 1 \/ i = 2 \/ i = 3) by lia.
    destruct H as [-> | [-> | [-> | ->]]];
      [reach (py "wallpaper 8") | reach (py "wallpaper 0")
      | reach (py "wallpaper 1") | reach (py "wallpaper 5")].
Qed.

Lemma encode_from_octets (object s : pystr) :
  forall pos data, encode_from object pos s = inr data ->
    Forall (fun b => (b < 256)%N) data /\
    (List.length s <= List.length data <= 4 * List.length s)%nat /\
    (forallb is_ascii s = true -> data = s).
Proof.
  induction s as [|c s IH]; intros pos data H.
  - cbn [encode_from] in H. injection H as <-.
    split; [constructor|]. split; [simpl; lia | reflexivity].
  - cbn [encode_from] in H.
    destruct (encodable c) eqn:Hc; [|discriminate H].
    destruct (encode_from object (S pos) s) as [e|rest] eqn:Hs;
      simpl in H; [discriminate H|].
    injection H as <-.
    destruct (IH _ _ Hs) as [Hoct [Hlen Hascii]].
    unfold encodable in Hc. apply andb_true_iff in Hc as [_ Hc].
    apply N.ltb_lt in Hc.
    destruct (utf8_char_octets c Hc) as [Hchar Hcl].
    split; [|split].
    + apply Forall_app. now split.
    + rewrite length_app. cbn [List.length]. lia.
    + intros Ha. cbn [forallb] in Ha. apply andb_true_iff in Ha as [Hca Hsa].
      rewrite (Hascii Hsa). unfold utf8_char, is_ascii in *.
      change 0x80%N with 128%N. now rewrite Hca.
Qed.

(** X7. What is hashed. When [prompt.encode()] returns, every element of the
    result is an octet, there are between one and four of them for each code
    point, and for an ASCII prompt they are the code points themselves. *)
Theorem encoded_prompt_octets (s : pystr) (data : pybytes) :
  str_encode s = inr data ->
  Forall (fun b => (b < 256)%N) data /\
  (List.length s <= List.length data <= 4 * List.length s)%nat /\
  (forallb is_ascii s = true -> data = s).
Proof.
  intros H. exact (encode_from_octets s s 0%nat data H).
Qed.

(** * Properties of the agent endpoints *)

Ltac run_block :=
  unfold chat_with_agent, chat_try, search_and_summarize, search_try,
    get_agent_capabilities, capabilities_try, tools_used,
    and_then, globals, call, ret, throw, set_search_agent, set_chat_agent;
  cbn [fst snd search_agent chat_agent log option_map is_none andb].

Ltac norm :=
  cbn [fst snd search_agent chat_agent log option_map is_none andb].

(** Succeeds on a scrutinee that holds no further case analysis. *)
Ltac innermost scrutinee :=
  lazymatch scrutinee with
  | context [match _ with _ => _ end] => fail
  | _ => idtac
  end.

Ltac split_step :=
  match goal with
  | |- context [match ?scrutinee with _ => _ end] =>
      innermost scrutinee; destruct scrutinee eqn:?;
      cbn [fst snd search_agent chat_agent log option_map is_none andb] in *
  end.

Ltac split_match := repeat split_step.

Section AgentProperties.

Context {pyobject agent_error env : Type}.
Variable lib : collaborators pyobject agent_error env.

(** X8. Whatever the request and whatever the agent library does, the three
    agent endpoints keep an agent that is already in place (it is neither
    cleared nor replaced), and they only ever add to the log, at most one
    record per call. *)
Theorem agent_handlers_keep_agents (s : process * env) :
  let kept (s' : process * env) :=
    (forall a, search_agent (fst s) = Some a -> search_agent (fst s') = Some a) /\
    (forall a, chat_agent (fst s) = Some a -> chat_agent (fst s') = Some a) /\
    exists records,
      log (fst s') = log (fst s) ++ records /\ (List.length records <= 1)%nat in
  (forall request, kept (snd (chat_with_agent lib request s))) /\
  (forall request, kept (snd (search_and_summarize lib request s))) /\
  kept (snd (get_agent_capabilities lib s)).
Proof.
  destruct s as [[sa ca lg] w]. cbn zeta. cbn [fst].
  assert (Hnil : lg = lg ++ []) by (now rewrite app_nil_r).
  split; [|split].
  - intros request. run_block.
    destruct (pystr_eqb (ChatRequest.agent_type request) (py "search"));
      destruct (pystr_eqb (ChatRequest.agent_type request) (py "chat"));
      destruct sa, ca; norm;
      split_match; unfold logger_error; cbn [fst snd search_agent chat_agent log];
      (split; [intros ? ?; congruence|]);
      (split; [intros ? ?; congruence|]);
      first [ exists []; split; [exact Hnil | simpl; lia]
            | eexists; split; [reflexivity | simpl; lia] ].
  - intros request. run_block.
    destruct sa; norm;
      split_match; unfold logger_error; cbn [fst snd search_agent chat_agent log];
      (split; [intros ? ?; congruence|]);
      (split; [intros ? ?; congruence|]);
      first [ exists []; split; [exact Hnil | simpl; lia]
            | eexists; split; [reflexivity | simpl; lia] ].
  - run_block.
    split_match; unfold logger_error; cbn [fst snd search_agent chat_agent log];
      (split; [intros ? ?; congruence|]);
      (split; [intros ? ?; congruence|]);
      first [ exists []; split; [exact Hnil | simpl; lia]
            | eexists; split; [reflexivity | simpl; lia] ].
Qed.

(** X9. "Failed to initialize agent" is the answer to a request whose
    [agent_type] is neither "search" nor "chat" while no chat agent is in
    place, and to no other request: such a request builds no agent, calls
    nothing outside and leaves one record in the log. Every other exception
    the chat endpoint catches was raised by the agent library. *)
Theorem chat_without_an_agent (request : ChatRequest.t pyobject)
    (p : process) (w : env) :
  let t := ChatRequest.agent_type request in
  let e : fault agent_error := HTTPException 500 (py "Failed to initialize agent") in
  (t <> py "search" -> t <> py "chat" -> chat_agent p = None ->
   chat_with_agent lib request (p, w) =
   (ChatResponse.mk false (py "") t [] [] (Some (str_of_fault lib e)),
    (logger_error (py "Error in chat endpoint: " ++ str_of_fault lib e) p, w))) /\
  (forall e' s',
     chat_try lib request (p, w) = (inl e', s') ->
     (exists x, e' = AgentRaised x) \/
     (e' = e /\ t <> py "search" /\ t <> py "chat" /\
      chat_agent p = None /\ s' = (p, w))).
Proof.
  intros t e. subst t e. destruct p as [sa ca lg]. split.
  - intros H1 H2 H3. cbn [chat_agent] in H3. subst ca.
    apply pystr_eqb_neq in H1, H2. run_block. rewrite H1, H2.
    norm. reflexivity.
  - intros e' s'. run_block.
    destruct (pystr_eqb (ChatRequest.agent_type request) (py "search")) eqn:E1;
      destruct (pystr_eqb (ChatRequest.agent_type request) (py "chat")) eqn:E2;
      destruct sa, ca;
      cbn [fst snd search_agent chat_agent log option_map is_none andb];
      split_match; intros [= <- <-];
      try (left; eexists; reflexivity);
      right; apply pystr_eqb_neq in E1, E2; repeat split; assumption.
Qed.


(** X11. An agent built during a request stays in place whatever happens
    next in that request, also when [execute] raises; the other agent is not
    touched. This holds for a "search" chat request and for the search
    endpoint alike, so the two share one search agent. *)
Theorem constructed_agent_stays (p : process) (w w1 : env) (a : SearchAgent) :
  search_agent p = None ->
  SearchAgent_new lib agent_config w = (inr a, w1) ->
  (forall request,
     ChatRequest.agent_type request = py "search" ->
     let p' := fst (snd (chat_with_agent lib request (p, w))) in
     search_agent p' = Some a /\ chat_agent p' = chat_agent p) /\
  (forall request,
     let p' := fst (snd (search_and_summarize lib request (p, w))) in
     search_agent p' = Some a /\ chat_agent p' = chat_agent p).
Proof.
  intros Hs Hnew. destruct p as [sa ca lg]. cbn [search_agent] in Hs. subst sa.
  split.
  - intros request Ht p'. subst p'. run_block. rewrite Ht.
    change (pystr_eqb (py "search") (py "search")) with true.
    norm. rewrite Hnew. norm.
    split_match; split; reflexivity.
  - intros request p'. subst p'. run_block.
    norm. rewrite Hnew. norm.
    split_match; split; reflexivity.
Qed.

(** X12. When the constructor of the search agent raises, the search
    endpoint answers [success = false] with that exception as [error],
    empty summary and no sources; [execute] is not called, and the binding
    stays [None], so the next request constructs again. *)
Theorem search_constructor_failure (request : SearchRequest.t)
    (p : process) (w w1 : env) (x : agent_error) :
  search_agent p = None ->
  SearchAgent_new lib agent_config w = (inl x, w1) ->
  search_and_summarize lib request (p, w) =
  (SearchResponse.mk false (SearchRequest.query request) (py "") None 0
     (Some (str_of_fault lib (AgentRaised x))),
   (logger_error
      (py "Error in search endpoint: " ++ str_of_fault lib (AgentRaised x)) p,
    w1)) /\
  search_agent (fst (snd (search_and_summarize lib request (p, w)))) = None.
Proof.
  intros Hs Hnew. destruct p as [sa ca lg]. cbn [search_agent] in Hs. subst sa.
  run_block. norm. rewrite Hnew. norm. split; reflexivity.
Qed.

(** X13. Every answer of the search endpoint echoes the query. A failed one,
    whether the agent reported the failure or an exception was caught, has
    an empty summary, zero sources and no search results. A successful one
    is built from what [execute] returned on the search agent in place: its
    summary is the content of that result, its search results are the
    metadata of that result, its source count is read from that metadata,
    and it has no error. *)
Theorem search_response_shape (request : SearchRequest.t) (s : process * env) :
  let out := search_and_summarize lib request s in
  let response := fst out in
  SearchResponse.query response = SearchRequest.query request /\
  (SearchResponse.success response = false ->
     SearchResponse.summary response = py "" /\
     SearchResponse.sources_count response = 0 /\
     SearchResponse.search_results response = None) /\
  (SearchResponse.success response = true ->
     SearchResponse.error response = None /\
     SearchResponse.search_results response <> None /\
     exists a w0 result,
       search_agent (fst (snd out)) = Some a /\
       execute lib (inl a)
         (py "Search for information about: " ++ SearchRequest.query request ++
          py ". Provide a comprehensive summary with key findings.")
         (Some true) w0 = (inr result, snd (snd out)) /\
       AgentResponse.success result = true /\
       SearchResponse.summary response = AgentResponse.content result /\
       SearchResponse.search_results response =
         Some (AgentResponse.metadata result) /\
       match dict_get (AgentResponse.metadata result) (py "tools_used") with
       | None => SearchResponse.sources_count response = 0
       | Some v => validate_int lib v = Some (SearchResponse.sources_count response)
       end).
Proof.
  intros out response. subst out response. destruct s as [[sa ca lg] w].
  run_block. unfold search_prompt. destruct sa; norm;
    split_match;
    cbn [fst snd search_agent
         SearchResponse.query SearchResponse.success SearchResponse.summary
         SearchResponse.sources_count SearchResponse.search_results
         SearchResponse.error];
    (split; [reflexivity|]); split; intros H;
    try discriminate H;
    try (repeat split; reflexivity);
    (split; [reflexivity|]); (split; [discriminate|]);
    eexists _, _, _;
    (split; [reflexivity|]); (split; [eassumption|]);
    (split; [assumption|]); (split; [reflexivity|]); (split; [reflexivity|]);
    match goal with
    | E : dict_get _ _ = _ |- _ => rewrite E
    end; first [reflexivity | assumption].
Qed.

(** X14. The number of sources. With the search agent in place and
    [execute] reporting success, the answer counts the sources by the
    "tools_used" entry of the metadata: zero when the entry is missing, its
    value when it is an [int], and when it is not, the whole answer turns
    into a failure although the agent succeeded. *)
Theorem search_sources_count (request : SearchRequest.t) (p : process)
    (w w1 : env) (a : SearchAgent) (result : AgentResponse.t pyobject) :
  search_agent p = Some a ->
  execute lib (inl a) (search_prompt (SearchRequest.query request)) (Some true) w
    = (inr result, w1) ->
  AgentResponse.success result = true ->
  let out := search_and_summarize lib request (p, w) in
  let answer n :=
    (SearchResponse.mk true (SearchRequest.query request)
       (AgentResponse.content result) (Some (AgentResponse.metadata result))
       n None, (p, w1)) in
  (dict_get (AgentResponse.metadata result) (py "tools_used") = None ->
     out = answer 0) /\
  (forall v n,
     dict_get (AgentResponse.metadata result) (py "tools_used") = Some v ->
     validate_int lib v = Some n -> out = answer n) /\
  (forall v,
     dict_get (AgentResponse.metadata result) (py "tools_used") = Some v ->
     validate_int lib v = None ->
     SearchResponse.success (fst out) = false /\
     SearchResponse.error (fst out) =
       Some (str_of_fault lib (ValidationError (py "sources_count")))).
Proof.
  intros Hs Hex Hok out answer. subst out answer.
  destruct p as [sa ca lg]. cbn [search_agent] in Hs. subst sa.
  run_block. norm. rewrite Hex. norm. rewrite Hok.
  split; [|split].
  - intros ->. reflexivity.
  - intros v n -> ->. reflexivity.
  - intros v -> ->. split; reflexivity.
Qed.


End AgentProperties.

(** X16. An agent is constructed only when the one a request needs is
    missing. Two agent libraries that differ in nothing but their
    constructors give the same answers and the same effects as soon as that
    agent is in place: the search agent for the search endpoint and for a
    "search" chat request, the chat agent for a "chat" request, none for any
    other [agent_type]. *)
Theorem agents_built_only_when_missing {pyobject agent_error env : Type}
    (lib1 lib2 : collaborators pyobject agent_error env)
    (p : process) (w : env) :
  execute lib1 = execute lib2 ->
  get_capabilities lib1 = get_capabilities lib2 ->
  validate_int lib1 = validate_int lib2 ->
  str_of_fault lib1 = str_of_fault lib2 ->
  (search_agent p <> None ->
   forall request,
     search_and_summarize lib1 request (p, w) =
     search_and_summarize lib2 request (p, w)) /\
  (forall request,
     (ChatRequest.agent_type request = py "search" -> search_agent p <> None) ->
     (ChatRequest.agent_type request = py "chat" -> chat_agent p <> None) ->
     chat_with_agent lib1 request (p, w) = chat_with_agent lib2 request (p, w)).
Proof.
  destruct lib1 as [ns1 nc1 ex1 gc1 vi1 sf1], lib2 as [ns2 nc2 ex2 gc2 vi2 sf2].
  cbn [execute get_capabilities validate_int str_of_fault].
  intros -> -> -> ->. destruct p as [sa ca lg]. norm. split.
  - intros Hs request. destruct sa as [a|]; [|congruence].
    run_block. cbn [SearchAgent_new execute validate_int str_of_fault]. reflexivity.
  - intros request Hs Hc. run_block.
    cbn [SearchAgent_new ChatAgent_new execute get_capabilities str_of_fault].
    destruct (pystr_eqb (ChatRequest.agent_type request) (py "search")) eqn:E1.
    + apply pystr_eqb_eq in E1. specialize (Hs E1).
      destruct sa as [a|]; [|congruence]. rewrite E1.
      change (pystr_eqb (py "search") (py "chat")) with false.
      norm. reflexivity.
    + norm.
      destruct (pystr_eqb (ChatRequest.agent_type request) (py "chat")) eqn:E2.
      * apply pystr_eqb_eq in E2. specialize (Hc E2).
        destruct ca as [a|]; [|congruence]. norm. reflexivity.
      * norm. reflexivity.
Qed.

(** X17. Two fields of the requests are never read: the answer to a chat
    request does not depend on its [context], nor the answer to a search
    request on its [max_results]. *)
Theorem unused_request_fields {pyobject agent_error env : Type}
    (lib : collaborators pyobject agent_error env) (s : process * env) :
  (forall message agent_type context context',
     chat_with_agent lib (ChatRequest.mk message agent_type context) s =
     chat_with_agent lib (ChatRequest.mk message agent_type context') s) /\
  (forall query max_results max_results',
     search_and_summarize lib (SearchRequest.mk query max_results) s =
     search_and_summarize lib (SearchRequest.mk query max_results') s).
Proof. split; reflexivity. Qed.

(** X18. What the search endpoint asks of the agent. With the search agent
    in place, the one call the endpoint makes to [execute] is on that agent,
    with [use_tools=True] and the instruction
    "Search for information about: <query>. Provide a comprehensive summary
    with key findings.": an exception of that call is the error of the
    answer, a failure it reports is passed on, the outside world is left as
    that call leaves it, and a library that answers this one call alike
    gives the same answer to the request. Two different queries never give
    the same instruction. *)
Theorem search_instruction_sent_to_agent {pyobject agent_error env : Type}
    (lib : collaborators pyobject agent_error env)
    (request : SearchRequest.t) (p : process) (w w1 : env) (a : SearchAgent)
    (reply : agent_error + AgentResponse.t pyobject) :
  let instruction query :=
    py "Search for information about: " ++ query ++
    py ". Provide a comprehensive summary with key findings." in
  let query := SearchRequest.query request in
  search_agent p = Some a ->
  execute lib (inl a) (instruction query) (Some true) w = (reply, w1) ->
  let out := search_and_summarize lib request (p, w) in
  (forall x, reply = inl x ->
     out =
     (SearchResponse.mk false query (py "") None 0
        (Some (str_of_fault lib (AgentRaised x))),
      (logger_error
         (py "Error in search endpoint: " ++ str_of_fault lib (AgentRaised x)) p,
       w1))) /\
  (forall result, reply = inr result ->
     AgentResponse.success result = false ->
     out =
     (SearchResponse.mk false query (py "") None 0 (AgentResponse.error result),
      (p, w1))) /\
  (forall result, reply = inr result ->
     AgentResponse.success result = true ->
     snd (snd out) = w1 /\
     (SearchResponse.success (fst out) = true ->
      SearchResponse.summary (fst out) = AgentResponse.content result /\
      SearchResponse.search_results (fst out) =
        Some (AgentResponse.metadata result))) /\
  (forall lib' : collaborators pyobject agent_error env,
     validate_int lib' = validate_int lib ->
     str_of_fault lib' = str_of_fault lib ->
     execute lib' (inl a) (instruction query) (Some true) w = (reply, w1) ->
     search_and_summarize lib' request (p, w) = out) /\
  (forall query', instruction query = instruction query' -> query = query').
Proof.
  intros instruction query Hs Hex out. subst instruction query out.
  destruct p as [sa ca lg]. cbn [search_agent] in Hs. subst sa.
  split; [|split; [|split; [|split]]].
  - intros x ->. run_block. unfold search_prompt. rewrite Hex. reflexivity.
  - intros result -> Hr. run_block. unfold search_prompt. rewrite Hex. norm.
    rewrite Hr. reflexivity.
  - intros result -> Hr. run_block. unfold search_prompt. rewrite Hex. norm.
    rewrite Hr.
    destruct (dict_get (AgentResponse.metadata result) (py "tools_used")) as [v|];
      [destruct (validate_int lib v)|];
      cbn [fst snd SearchResponse.success SearchResponse.summary
           SearchResponse.search_results];
      (split; [reflexivity|]); intros H; try discriminate H; split; reflexivity.
  - intros lib' Hv Hf Hex'. run_block. unfold search_prompt.
    rewrite Hex, Hex', Hv, Hf. reflexivity.
  - intros query' H. apply app_inv_head in H. now apply app_inv_tail in H.
Qed.

(** ** Runs of the further properties *)

(** A stand-in for the agent library, on which the handlers can be run. The
    outside world is a counter of the objects built so far, which gives each
    new agent its identity; the agents answer every message with the message
    itself and report one tool used; [build] says whether the constructors
    return or raise. *)
Definition stub_agents (build : bool) : collaborators unit unit N :=
  mk_collaborators unit unit N
    (fun config w =>
       if build then (inr (SearchAgent_of config w), (w + 1)%N) else (inl tt, w))
    (fun config w =>
       if build then (inr (ChatAgent_of config w), (w + 1)%N) else (inl tt, w))
    (fun _ message _ w =>
       (inr (AgentResponse.mk true message [(py "tools_used", tt)] None), w))
    (fun _ w => (inr [py "chat"], w))
    (fun _ => Some 1)
    (fun _ => py "error").

Lemma try_block_raises_only_in_encode_witness :
  let prompt := [97; 0xD800; 0xDC00; 98]%N in
  let request := WallpaperRequest.init prompt None None in
  try_body (fun s => s) request = inl (UnicodeEncodeError prompt 1 3) /\
  exists start,
    UnicodeEncodeError prompt 1 3 =
    UnicodeEncodeError prompt start (start + run_length (skipn start prompt)).
Proof.
  intros prompt request.
  assert (H : try_body (fun s => s) request = inl (UnicodeEncodeError prompt 1 3))
    by (vm_compute; reflexivity).
  split; [exact H|].
  destruct (try_block_raises_only_in_encode (fun s => s) request _ H)
    as [start [He _]].
  exists start. exact He.
Defined.

Lemma category_in_prompt_or_style_witness :
  let request :=
    WallpaperRequest.init (py "Sunset over the bay") None (Some (py "Dark mode")) in
  In (py "dark", bucket_of (py "dark")) sample_wallpapers /\
  str_contains (py "dark") (combined_text (fun s => s) request) =
  str_contains (py "dark") (str_lower (fun s => s) (WallpaperRequest.prompt request))
  || str_contains (py "dark") (str_lower (fun s => s) (style_or_empty request)).
Proof.
  intros request.
  assert (H : In (py "dark", bucket_of (py "dark")) sample_wallpapers).
  { cbn [sample_wallpapers In]. do 4 right. left. reflexivity. }
  split; [exact H|].
  exact (category_in_prompt_or_style (fun s => s) request _ _ H).
Defined.

Lemma image_url_closed_form_witness :
  let request := WallpaperRequest.init (py "city 0") None None in
  let t := py "https://images.unsplash.com/photo-1519501025264-65ba15a82390?w=512&h=910&fit=crop&auto=format" in
  selected_template (fun s => s) request = inr t /\
  exists id,
    t = url_of id (py "w=512&h=910") /\
    WallpaperResponse.image_url
      (fst (generate_wallpaper (fun s => s) (fun _ => py "error")
              (WallpaperRequest.mk (py "city 0") (py "1:1") None)
              (mk_process None None []))) =
    Some (url_of id (dimensions_of (py "1:1"))).
Proof.
  intros request t.
  assert (H : selected_template (fun s => s) request = inr t)
    by (vm_compute; reflexivity).
  split; [exact H|].
  destruct (image_url_closed_form (fun s => s) (fun _ => py "error") request t H)
    as [id [Ht Hu]].
  exists id. split; [exact Ht|].
  exact (Hu (py "1:1") (mk_process None None [])).
Defined.

Lemma adjust_dimensions_without_match_witness :
  str_contains (py "w=512&h=910") (py "https://example.com/a.png?w=100&h=100") = false /\
  adjust_dimensions (py "16:9") (py "https://example.com/a.png?w=100&h=100") =
  py "https://example.com/a.png?w=100&h=100".
Proof.
  assert (H : str_contains (py "w=512&h=910")
                (py "https://example.com/a.png?w=100&h=100") = false)
    by (vm_compute; reflexivity).
  split; [exact H|].
  exact (adjust_dimensions_without_match (py "16:9") _ H).
Defined.

Lemma every_template_is_served_witness :
  (In default_wallpapers (map snd sample_wallpapers) \/
   default_wallpapers = default_wallpapers) /\
  0 <= 3 < len default_wallpapers /\
  exists prompt, wallpaper_index prompt default_wallpapers = inr 3.
Proof.
  assert (Hb : In default_wallpapers (map snd sample_wallpapers) \/
               default_wallpapers = default_wallpapers) by (right; reflexivity).
  assert (Hi : 0 <= 3 < len default_wallpapers)
    by (split; [apply Z.leb_le | apply Z.ltb_lt]; reflexivity).
  split; [exact Hb|]. split; [exact Hi|].
  destruct (every_template_is_served default_wallpapers 3 Hb Hi) as [prompt [_ H]].
  exists prompt. exact (proj1 (proj2 (H (fun s => s)))).
Defined.

Lemma encoded_prompt_octets_witness :
  str_encode [0xE9; 0x20AC]%N = inr [0xC3; 0xA9; 0xE2; 0x82; 0xAC]%N /\
  Forall (fun b => (b < 256)%N) [0xC3; 0xA9; 0xE2; 0x82; 0xAC]%N.
Proof.
  assert (H : str_encode [0xE9; 0x20AC]%N = inr [0xC3; 0xA9; 0xE2; 0x82; 0xAC]%N)
    by (vm_compute; reflexivity).
  split; [exact H|].
  exact (proj1 (encoded_prompt_octets _ _ H)).
Defined.


Lemma constructed_agent_stays_witness :
  let p := mk_process None None [] in
  search_agent p = None /\
  SearchAgent_new (stub_agents true) agent_config 3%N =
    (inr (SearchAgent_of agent_config 3), 4%N) /\
  search_agent
    (fst (snd (search_and_summarize (stub_agents true)
                 (SearchRequest.mk (py "rocq") 5) (p, 3%N)))) =
  Some (SearchAgent_of agent_config 3).
Proof.
  intros p.
  assert (H1 : search_agent p = None) by reflexivity.
  assert (H2 : SearchAgent_new (stub_agents true) agent_config 3%N =
               (inr (SearchAgent_of agent_config 3), 4%N)) by reflexivity.
  split; [exact H1|]. split; [exact H2|].
  exact (proj1 (proj2 (constructed_agent_stays (stub_agents true) p 3%N 4%N _ H1 H2)
                  (SearchRequest.mk (py "rocq") 5))).
Defined.

Lemma search_constructor_failure_witness :
  let p := mk_process None None [] in
  search_agent p = None /\
  SearchAgent_new (stub_agents false) agent_config 3%N = (inl tt, 3%N) /\
  search_agent
    (fst (snd (search_and_summarize (stub_agents false)
                 (SearchRequest.mk (py "rocq") 5) (p, 3%N)))) = None.
Proof.
  intros p.
  assert (H1 : search_agent p = None) by reflexivity.
  assert (H2 : SearchAgent_new (stub_agents false) agent_config 3%N = (inl tt, 3%N))
    by reflexivity.
  split; [exact H1|]. split; [exact H2|].
  exact (proj2 (search_constructor_failure (stub_agents false)
                  (SearchRequest.mk (py "rocq") 5) p 3%N 3%N tt H1 H2)).
Defined.

Lemma search_sources_count_witness :
  let p := mk_process (Some (SearchAgent_of agent_config 3)) None [] in
  let request := SearchRequest.mk (py "rocq") 5 in
  let result : AgentResponse.t unit :=
    AgentResponse.mk true (search_prompt (py "rocq")) [(py "tools_used", tt)] None in
  search_agent p = Some (SearchAgent_of agent_config 3) /\
  execute (stub_agents true) (inl (SearchAgent_of agent_config 3))
    (search_prompt (SearchRequest.query request)) (Some true) 4%N
    = (inr result, 4%N) /\
  AgentResponse.success result = true /\
  SearchResponse.sources_count
    (fst (search_and_summarize (stub_agents true) request (p, 4%N))) = 1.
Proof.
  intros p request result.
  assert (H1 : search_agent p = Some (SearchAgent_of agent_config 3)) by reflexivity.
  assert (H2 : execute (stub_agents true) (inl (SearchAgent_of agent_config 3))
                 (search_prompt (SearchRequest.query request)) (Some true) 4%N
               = (inr result, 4%N)) by reflexivity.
  assert (H3 : AgentResponse.success result = true) by reflexivity.
  split; [exact H1|]. split; [exact H2|]. split; [exact H3|].
  rewrite (proj1 (proj2 (search_sources_count (stub_agents true) request p 4%N 4%N
                           _ result H1 H2 H3)) tt 1 eq_refl eq_refl).
  reflexivity.
Defined.

Lemma agents_built_only_when_missing_witness :
  let p := mk_process (Some (SearchAgent_of agent_config 3)) None [] in
  execute (stub_agents true) = execute (stub_agents false) /\
  get_capabilities (stub_agents true) = get_capabilities (stub_agents false) /\
  validate_int (stub_agents true) = validate_int (stub_agents false) /\
  str_of_fault (stub_agents true) = str_of_fault (stub_agents false) /\
  search_agent p <> None /\
  search_and_summarize (stub_agents true) (SearchRequest.mk (py "rocq") 5) (p, 4%N) =
  search_and_summarize (stub_agents false) (SearchRequest.mk (py "rocq") 5) (p, 4%N).
Proof.
  intros p.
  assert (H5 : search_agent p <> None) by discriminate.
  repeat (split; [reflexivity|]). split; [exact H5|].
  exact (proj1 (agents_built_only_when_missing (stub_agents true) (stub_agents false)
                  p 4%N eq_refl eq_refl eq_refl eq_refl) H5
           (SearchRequest.mk (py "rocq") 5)).
Defined.

Lemma search_instruction_sent_to_agent_witness :
  let p := mk_process (Some (SearchAgent_of agent_config 3)) None [] in
  let request := SearchRequest.mk (py "rocq") 5 in
  let instruction :=
    py "Search for information about: rocq. Provide a comprehensive summary with key findings." in
  let result : AgentResponse.t unit :=
    AgentResponse.mk true instruction [(py "tools_used", tt)] None in
  search_agent p = Some (SearchAgent_of agent_config 3) /\
  execute (stub_agents true) (inl (SearchAgent_of agent_config 3))
    instruction (Some true) 4%N = (inr result, 4%N) /\
  SearchResponse.summary
    (fst (search_and_summarize (stub_agents true) request (p, 4%N))) = instruction.
Proof.
  intros p request instruction result.
  assert (H1 : search_agent p = Some (SearchAgent_of agent_config 3)) by reflexivity.
  assert (H2 : execute (stub_agents true) (inl (SearchAgent_of agent_config 3))
                 instruction (Some true) 4%N = (inr result, 4%N)) by reflexivity.
  split; [exact H1|]. split; [exact H2|].
  exact (proj1 (proj2 (proj1 (proj2 (proj2
           (search_instruction_sent_to_agent (stub_agents true) request p 4%N 4%N
              _ _ H1 H2))) result eq_refl eq_refl) eq_refl)).
Defined.
